(** * iframe-finder: recursive search across nested documents

    A shallow embedding of [src/index.ts].  The host's DOM is a snapshot:
    each document is the sequence of its elements in document order, an
    iframe element carries the state of its nested browsing context, and
    the host's selector engine and the engine's limit on the arguments of
    one call are parameters of the development. *)

From Stdlib Require Import List ZArith String Bool Lia.
Import ListNotations.
Local Open Scope Z_scope.

(** ** The document tree *)

(** A document holds its elements in document order; an element is an
    iframe or anything else; an iframe carries what reading
    [iframe.contentDocument] meets: a same-origin loaded document, no
    document (the getter yields [null]), or a cross-origin frame (the
    getter raises). *)
Inductive Document : Type :=
| Doc (all : list Element)
with Element : Type :=
| Other (tagName id className : string)
| IFrameOf (iframe : HTMLIFrameElement)
with HTMLIFrameElement : Type :=
| IFrame (id name className : string) (content : BrowsingContext)
with BrowsingContext : Type :=
| Loaded (contentDoc : Document)
| NotLoaded
| CrossOrigin.

Definition elements (doc : Document) : list Element :=
  match doc with Doc all => all end.

Definition iframe_id (iframe : HTMLIFrameElement) : string :=
  match iframe with IFrame id _ _ _ => id end.

Definition iframe_name (iframe : HTMLIFrameElement) : string :=
  match iframe with IFrame _ name _ _ => name end.

Definition iframe_className (iframe : HTMLIFrameElement) : string :=
  match iframe with IFrame _ _ className _ => className end.

Definition content (iframe : HTMLIFrameElement) : BrowsingContext :=
  match iframe with IFrame _ _ _ c => c end.

(** ** Completions: a call returns normally or throws *)

(** What is thrown: a [SecurityError] by the getter of a cross-origin
    iframe, a [RangeError] by a call that is given more arguments than the
    engine takes. *)
Inductive Exception : Type :=
| SecurityError
| RangeError.

Inductive Completion (A : Type) : Type :=
| Normal (a : A)
| Throw (err : Exception).
Arguments Normal {A} a.
Arguments Throw {A} err.

Definition bind {A B} (c : Completion A) (k : A -> Completion B) : Completion B :=
  match c with
  | Normal a => k a
  | Throw err => Throw err
  end.

(** [try { body } catch (error) { handler }] *)
Definition tryCatch {A} (body : Completion A) (handler : Exception -> Completion A)
  : Completion A :=
  match body with
  | Normal a => Normal a
  | Throw err => handler err
  end.

Notation "x <- c ;; k" := (bind c (fun x => k))
  (at level 61, c at next level, right associativity).

(** [try { body } catch (error) { handler }] around a body that also
    updates a store: the handler starts from the store as the throw left it. *)
Definition tryCatchWith {S A} (body : Completion A * S)
    (handler : Exception -> S -> Completion A * S) : Completion A * S :=
  match body with
  | (Normal a, s) => (Normal a, s)
  | (Throw err, s) => handler err s
  end.

(** The getter [iframe.contentDocument]. *)
Definition contentDocument (iframe : HTMLIFrameElement) : Completion (option Document) :=
  match content iframe with
  | Loaded contentDoc => Normal (Some contentDoc)
  | NotLoaded => Normal None
  | CrossOrigin => Throw SecurityError
  end.

(** ** Numbers used as depth bounds *)

(** [maxDepth] is a JavaScript number; the integers and [Infinity] (the
    default) are modelled.  [currentDepth] starts at 0 and is only ever
    incremented, so it is an integer. *)
Inductive Number : Type :=
| Int (z : Z)
| Infinity.

(** [currentDepth > maxDepth] *)
Definition exceeds (currentDepth : Z) (maxDepth : Number) : bool :=
  match maxDepth with
  | Int m => m <? currentDepth
  | Infinity => false
  end.

(** ** Options *)

Record FindIframeOptions : Type := mkOptions {
  rootDocument : option Document;
  maxDepth : option Number
}.

(** [options = {}] *)
Definition noOptions : FindIframeOptions := mkOptions None None.

(** [const { field = fallback } = options] *)
Definition default {A} (fallback : A) (field : option A) : A :=
  match field with
  | Some a => a
  | None => fallback
  end.

Definition IframePredicate : Type := HTMLIFrameElement -> bool.

(** [doc.querySelectorAll('iframe')], as a list ([Array.from]). *)
Fixpoint iframesOf (all : list Element) : list HTMLIFrameElement :=
  match all with
  | [] => []
  | IFrameOf iframe :: rest => iframe :: iframesOf rest
  | Other _ _ _ :: rest => iframesOf rest
  end.

Definition querySelectorAll_iframe (doc : Document) : list HTMLIFrameElement :=
  iframesOf (elements doc).

Section Finder.

(** The host's selector engine: does the element match the selector. *)
Variable matches : string -> Element -> bool.

(** The ambient [window.document], the default root. *)
Variable document : Document.

(** The largest number of arguments the engine takes in one call. *)
Variable argumentLimit : nat.

(** Can the items be spread as the arguments of one call. *)
Definition fits {A} (items : list A) : bool :=
  (List.length items <=? argumentLimit)%nat.

(** [results.push(...items)]: every item is an argument of the one call
    to [push]; past the limit the call throws and nothing is pushed. *)
Definition push (results items : list Element) : Completion unit * list Element :=
  if fits items then (Normal tt, results ++ items)
  else (Throw RangeError, results).

(** [doc.querySelectorAll(selector)], as a list. *)
Definition querySelectorAll (selector : string) (doc : Document) : list Element :=
  filter (matches selector) (elements doc).

(** [doc.querySelector(selector)]: the first match in document order. *)
Definition querySelector (selector : string) (doc : Document) : option Element :=
  find (matches selector) (elements doc).

(** ** The searches *)

(** In the loops, the body of one iteration yields [Some found] when it
    executes [return found] and [None] when it ends or executes
    [continue]; the [try] encloses the getter and the recursive call, and
    its handler goes on with the next iteration. *)

Fixpoint findIframeRecursive (predicate : IframePredicate) (doc : Document)
    (currentDepth : Z) (maxDepth : Number) {struct doc}
  : Completion (option HTMLIFrameElement) :=
  if exceeds currentDepth maxDepth then Normal None
  else
    let iframes := querySelectorAll_iframe doc in
    (* First pass: check current level *)
    match find predicate iframes with
    | Some iframe => Normal (Some iframe)
    | None =>
      (* Second pass: recurse into nested iframes.  The loop meets the
         iframes by walking the elements of the document in order and
         passing over the others (see [firstResult_closed]). *)
      (fix secondPass (rest : list Element) : Completion (option HTMLIFrameElement) :=
         match rest with
         | [] => Normal None
         | Other _ _ _ :: rest' => secondPass rest'
         | IFrameOf iframe :: rest' =>
           (* [iframe.contentDocument] is read in place (see [contentDocument]),
              which keeps the recursion structural *)
           step <- tryCatch
                     (match content iframe with
                      | CrossOrigin => Throw SecurityError
                      | NotLoaded => Normal None
                      | Loaded contentDoc =>
                        foundInNested <- findIframeRecursive predicate contentDoc
                                           (currentDepth + 1) maxDepth ;;
                        match foundInNested with
                        | Some found => Normal (Some found)
                        | None => Normal None
                        end
                      end)
                     (fun _ => Normal None) ;;
           match step with
           | Some found => Normal (Some found)
           | None => secondPass rest'
           end
         end) (elements doc)
    end.

(** [findIframeById(id, options)] *)
Definition findIframeById (id : string) (options : FindIframeOptions)
  : Completion (option HTMLIFrameElement) :=
  let rootDocument := default document (rootDocument options) in
  let maxDepth := default Infinity (maxDepth options) in
  findIframeRecursive (fun iframe => String.eqb (iframe_id iframe) id)
    rootDocument 0 maxDepth.

(** [findIframeByName(name, options)] *)
Definition findIframeByName (name : string) (options : FindIframeOptions)
  : Completion (option HTMLIFrameElement) :=
  let rootDocument := default document (rootDocument options) in
  let maxDepth := default Infinity (maxDepth options) in
  findIframeRecursive (fun iframe => String.eqb (iframe_name iframe) name)
    rootDocument 0 maxDepth.

(** [findIframe(predicate, options)] *)
Definition findIframe (predicate : IframePredicate) (options : FindIframeOptions)
  : Completion (option HTMLIFrameElement) :=
  let rootDocument := default document (rootDocument options) in
  let maxDepth := default Infinity (maxDepth options) in
  findIframeRecursive predicate rootDocument 0 maxDepth.

(** [findAllIframes(predicate, rootDocument)]: no [try], no getter that
    raises, so a plain list. *)
Definition findAllIframes (predicate : IframePredicate) (rootDocument : option Document)
  : list HTMLIFrameElement :=
  let rootDocument := default document rootDocument in
  let iframes := querySelectorAll_iframe rootDocument in
  filter predicate iframes.

Fixpoint findElementRecursive (selector : string) (doc : Document)
    (currentDepth : Z) (maxDepth : Number) {struct doc}
  : Completion (option Element) :=
  if exceeds currentDepth maxDepth then Normal None
  else
    (* Try to find element in current document *)
    match querySelector selector doc with
    | Some element => Normal (Some element)
    | None =>
      (* Search in all nested iframes (the loop as in [findIframeRecursive]) *)
      (fix nestedIframes (rest : list Element) : Completion (option Element) :=
         match rest with
         | [] => Normal None
         | Other _ _ _ :: rest' => nestedIframes rest'
         | IFrameOf iframe :: rest' =>
           step <- tryCatch
                     (match content iframe with
                      | CrossOrigin => Throw SecurityError
                      | NotLoaded => Normal None
                      | Loaded contentDoc =>
                        foundInNested <- findElementRecursive selector contentDoc
                                           (currentDepth + 1) maxDepth ;;
                        match foundInNested with
                        | Some found => Normal (Some found)
                        | None => Normal None
                        end
                      end)
                     (fun _ => Normal None) ;;
           match step with
           | Some found => Normal (Some found)
           | None => nestedIframes rest'
           end
         end) (elements doc)
    end.

(** [findElement(selector, options)] *)
Definition findElement (selector : string) (options : FindIframeOptions)
  : Completion (option Element) :=
  let rootDocument := default document (rootDocument options) in
  let maxDepth := default Infinity (maxDepth options) in
  findElementRecursive selector rootDocument 0 maxDepth.

(** The accumulator [results] is one array shared by all the calls: it is
    threaded through, and what was pushed before a throw stays pushed. *)
Fixpoint findAllElementsRecursive (selector : string) (doc : Document)
    (currentDepth : Z) (maxDepth : Number) (results : list Element) {struct doc}
  : Completion unit * list Element :=
  if exceeds currentDepth maxDepth then (Normal tt, results)
  else
    (* Find all elements in current document *)
    let '(pushed, results) := push results (querySelectorAll selector doc) in
    match pushed with
    | Throw err => (Throw err, results)
    | Normal _ =>
    (* Search in all nested iframes *)
    (fix nestedIframes (rest : list Element) (results : list Element)
       : Completion unit * list Element :=
       match rest with
       | [] => (Normal tt, results)
       | Other _ _ _ :: rest' => nestedIframes rest' results
       | IFrameOf iframe :: rest' =>
         let '(step, results) :=
           tryCatchWith
             (match content iframe with
              | CrossOrigin => (Throw SecurityError, results)
              | NotLoaded => (Normal tt, results)
              | Loaded contentDoc =>
                findAllElementsRecursive selector contentDoc
                  (currentDepth + 1) maxDepth results
              end)
             (fun _ results => (Normal tt, results)) in
         match step with
         | Normal _ => nestedIframes rest' results
         | Throw err => (Throw err, results)
         end
       end) (elements doc) results
    end.

(** [findAllElements(selector, options)] *)
Definition findAllElements (selector : string) (options : FindIframeOptions)
  : Completion (list Element) :=
  let rootDocument := default document (rootDocument options) in
  let maxDepth := default Infinity (maxDepth options) in
  let results := [] in
  let '(step, results) :=
    findAllElementsRecursive selector rootDocument 0 maxDepth results in
  _ <- step ;; Normal results.

End Finder.

(** ** Vocabulary of the statements *)

(** The value a call yields, [None] when it throws. *)
Definition returned {A} (c : Completion (option A)) : option A :=
  match c with
  | Normal r => r
  | Throw _ => None
  end.

(** The first non-absent answer of [f] along [l]. *)
Fixpoint firstSome {A B} (f : A -> option B) (l : list A) : option B :=
  match l with
  | [] => None
  | a :: rest =>
    match f a with
    | Some b => Some b
    | None => firstSome f rest
    end
  end.

(** The nested document an iframe gives access to, if any: the getter
    neither raised nor yielded [null]. *)
Definition accessible (iframe : HTMLIFrameElement) : option Document :=
  match contentDocument iframe with
  | Normal (Some contentDoc) => Some contentDoc
  | Normal None => None
  | Throw _ => None
  end.

(** The documents [n] iframe boundaries below [doc], in traversal order. *)
Fixpoint documentsAtDepth (n : nat) (doc : Document) : list Document :=
  match n with
  | O => [doc]
  | S k =>
    flat_map (fun iframe =>
                match accessible iframe with
                | Some contentDoc => documentsAtDepth k contentDoc
                | None => []
                end)
             (querySelectorAll_iframe doc)
  end.

(** The iframes lying directly in a document at depth [n] below [doc]. *)
Definition iframesAtDepth (n : nat) (doc : Document) : list HTMLIFrameElement :=
  flat_map querySelectorAll_iframe (documentsAtDepth n doc).

(** The elements lying directly in a document at depth [n] below [doc]. *)
Definition elementsAtDepth (n : nat) (doc : Document) : list Element :=
  flat_map elements (documentsAtDepth n doc).

(** What the second pass obtains from one iframe: the answer of the
    recursive call on its nested document, nothing when there is no access. *)
Definition foundBelow (predicate : IframePredicate) (currentDepth : Z)
    (maxDepth : Number) (iframe : HTMLIFrameElement) : option HTMLIFrameElement :=
  match accessible iframe with
  | Some contentDoc =>
    returned (findIframeRecursive predicate contentDoc (currentDepth + 1) maxDepth)
  | None => None
  end.

(** The same for [findElementRecursive]. *)
Definition elementBelow (matches : string -> Element -> bool) (selector : string)
    (currentDepth : Z) (maxDepth : Number) (iframe : HTMLIFrameElement) : option Element :=
  match accessible iframe with
  | Some contentDoc =>
    returned (findElementRecursive matches selector contentDoc (currentDepth + 1) maxDepth)
  | None => None
  end.

(** What one call of [findAllElementsRecursive] pushes, seen on an empty
    accumulator. *)
Definition collected (matches : string -> Element -> bool) (argumentLimit : nat)
    (selector : string)
    (doc : Document) (currentDepth : Z) (maxDepth : Number) : list Element :=
  snd (findAllElementsRecursive matches argumentLimit selector doc currentDepth maxDepth []).

(** What the descent into one iframe pushes. *)
Definition collectedBelow (matches : string -> Element -> bool) (argumentLimit : nat)
    (selector : string)
    (currentDepth : Z) (maxDepth : Number) (iframe : HTMLIFrameElement) : list Element :=
  match accessible iframe with
  | Some contentDoc => collected matches argumentLimit selector contentDoc (currentDepth + 1) maxDepth
  | None => []
  end.

(** [P] holds of every nested document the iframes of [all] give access to. *)
Fixpoint AllNested (P : Document -> Prop) (all : list Element) : Prop :=
  match all with
  | [] => True
  | IFrameOf (IFrame _ _ _ (Loaded contentDoc)) :: rest => P contentDoc /\ AllNested P rest
  | _ :: rest => AllNested P rest
  end.

(** ** Sample documents *)

(** A selector engine that knows class selectors only: [.c] selects the
    elements of class [c]. *)
Definition classOf (element : Element) : string :=
  match element with
  | Other _ _ className => className
  | IFrameOf iframe => iframe_className iframe
  end.

Definition matchesClass (selector : string) (element : Element) : bool :=
  String.eqb selector ("." ++ classOf element).

Definition hasClass (className : string) : IframePredicate :=
  fun iframe => String.eqb (iframe_className iframe) className.

(** Root: iframe [a] without a nested document, iframe [b] whose document
    holds iframe [target]. *)
Definition frameTarget : HTMLIFrameElement := IFrame "target" "" "" NotLoaded.
Definition frameA : HTMLIFrameElement := IFrame "a" "" "" NotLoaded.
Definition frameB : HTMLIFrameElement :=
  IFrame "b" "" "" (Loaded (Doc [IFrameOf frameTarget])).
Definition pageAB : Document := Doc [IFrameOf frameA; IFrameOf frameB].

(** Root: iframe [left], two levels above a match, then iframe [right],
    one level above a match. *)
Definition deepHit : HTMLIFrameElement := IFrame "deep" "" "hit" NotLoaded.
Definition deepDiv : Element := Other "div" "deepDiv" "box".
Definition shallowHit : HTMLIFrameElement := IFrame "shallow" "" "hit" NotLoaded.
Definition shallowDiv : Element := Other "div" "shallowDiv" "box".
Definition frameMiddle : HTMLIFrameElement :=
  IFrame "middle" "" "" (Loaded (Doc [IFrameOf deepHit; deepDiv])).
Definition frameLeft : HTMLIFrameElement :=
  IFrame "left" "" "" (Loaded (Doc [IFrameOf frameMiddle])).
Definition frameRight : HTMLIFrameElement :=
  IFrame "right" "" "" (Loaded (Doc [IFrameOf shallowHit; shallowDiv])).
Definition pageLeftRight : Document := Doc [IFrameOf frameLeft; IFrameOf frameRight].

(** Root: a cross-origin iframe, then an iframe whose document holds
    an element of class [foo]. *)
Definition fooDiv : Element := Other "div" "" "foo".
Definition frameBlocked : HTMLIFrameElement := IFrame "ad" "" "" CrossOrigin.
Definition frameOpen : HTMLIFrameElement :=
  IFrame "open" "" "" (Loaded (Doc [fooDiv])).
Definition pageBlocked : Document := Doc [IFrameOf frameBlocked; IFrameOf frameOpen].

(** ** Further vocabulary *)

(** [maxDepth - 1] *)
Definition minusOne (maxDepth : Number) : Number :=
  match maxDepth with
  | Int m => Int (m - 1)
  | Infinity => Infinity
  end.

(** [a <= b] on depth bounds. *)
Definition leNumber (a b : Number) : Prop :=
  match a, b with
  | Int m, Int m' => m <= m'
  | _, Infinity => True
  | Infinity, Int _ => False
  end.

(** The list a call yields, empty when it throws. *)
Definition completed {A} (c : Completion (list A)) : list A :=
  match c with
  | Normal all => all
  | Throw _ => []
  end.

(** No document within the bound below [doc] has more matches than the
    engine takes as the arguments of one call. *)
Definition allFit (matches : string -> Element -> bool) (argumentLimit : nat)
    (selector : string) (doc : Document) (currentDepth : Z) (maxDepth : Number) : Prop :=
  forall (n : nat) D,
    exceeds (currentDepth + Z.of_nat n) maxDepth = false ->
    In D (documentsAtDepth n doc) ->
    fits argumentLimit (querySelectorAll matches selector D) = true.

(** [l1] is [l2] with some of its members left out, the order kept. *)
Inductive Subseq {A : Type} : list A -> list A -> Prop :=
| Subseq_nil : forall l, Subseq [] l
| Subseq_keep : forall a l1 l2, Subseq l1 l2 -> Subseq (a :: l1) (a :: l2)
| Subseq_drop : forall a l1 l2, Subseq l1 l2 -> Subseq l1 (a :: l2).

(** A selector engine that knows [iframe.c] only: the iframes of class [c]. *)
Definition matchesIframeClass (selector : string) (element : Element) : bool :=
  match element with
  | Other _ _ _ => false
  | IFrameOf iframe => String.eqb selector ("iframe." ++ iframe_className iframe)
  end.

(** Root: an element of class [foo], then a cross-origin iframe, then an
    iframe that has no document. *)
Definition frameEmpty : HTMLIFrameElement := IFrame "empty" "" "" NotLoaded.
Definition pageClosed : Document :=
  Doc [fooDiv; IFrameOf frameBlocked; IFrameOf frameEmpty].

(** Root: an element of class [box], then iframe [crowded], whose
    document holds three elements of class [box] and an iframe above one
    more, then iframe [lone], whose document holds one. *)
Definition box (id : string) : Element := Other "div" id "box".
Definition frameInner : HTMLIFrameElement :=
  IFrame "inner" "" "" (Loaded (Doc [box "e"])).
Definition crowded : Document :=
  Doc [box "b"; box "c"; box "d"; IFrameOf frameInner].
Definition frameCrowded : HTMLIFrameElement := IFrame "crowded" "" "" (Loaded crowded).
Definition frameLone : HTMLIFrameElement :=
  IFrame "lone" "" "" (Loaded (Doc [box "f"])).
Definition pageCrowded : Document :=
  Doc [box "a"; IFrameOf frameCrowded; IFrameOf frameLone].

(** ** Theory *)

Section DocumentInduction.

Variable P : Document -> Prop.

Hypothesis P_Doc : forall all,
  (forall iframe contentDoc,
     In iframe (iframesOf all) -> content iframe = Loaded contentDoc -> P contentDoc) ->
  P (Doc all).

Lemma AllNested_In all :
  AllNested P all ->
  forall iframe contentDoc,
    In iframe (iframesOf all) -> content iframe = Loaded contentDoc -> P contentDoc.
Proof.
  induction all as [|e rest IHrest]; intros Hall iframe contentDoc Hin Hc.
  - destruct Hin.
  - destruct e as [tag i c | [i n c ctx]].
    + exact (IHrest Hall iframe contentDoc Hin Hc).
    + destruct Hin as [<- | Hin].
      * simpl in Hc. subst ctx. exact (proj1 Hall).
      * apply (IHrest) with (iframe := iframe); trivial.
        destruct ctx; [exact (proj2 Hall) | exact Hall | exact Hall].
Qed.

Lemma Document_nested_ind : forall doc, P doc.
Proof.
  fix IH 1.
  intros [all]. apply P_Doc. apply AllNested_In.
  induction all as [|e rest IHrest]; [exact I|].
  destruct e as [tag i c | [i n c [contentDoc| |]]]; cbn; try exact IHrest.
  split; [apply IH | exact IHrest].
Qed.

End DocumentInduction.

Lemma accessible_Loaded iframe contentDoc :
  accessible iframe = Some contentDoc <-> content iframe = Loaded contentDoc.
Proof.
  unfold accessible, contentDocument.
  destruct (content iframe); split; intros H; inversion H; reflexivity.
Qed.

(** *** Lists *)

Lemma iframesOf_app pre post :
  iframesOf (pre ++ post) = iframesOf pre ++ iframesOf post.
Proof.
  induction pre as [|e pre IH]; [reflexivity|].
  destruct e; cbn; [exact IH | now rewrite IH].
Qed.

Lemma firstSome_none {A B} (f : A -> option B) l :
  (forall a, In a l -> f a = None) -> firstSome f l = None.
Proof.
  induction l as [|a rest IH]; intros Hf; [reflexivity|].
  cbn. rewrite (Hf a (or_introl eq_refl)).
  apply IH. intros a' Hin. apply Hf. now right.
Qed.

Lemma firstSome_ext {A B} (f g : A -> option B) l :
  (forall a, In a l -> f a = g a) -> firstSome f l = firstSome g l.
Proof.
  induction l as [|a rest IH]; intros Hfg; [reflexivity|].
  cbn. rewrite (Hfg a (or_introl eq_refl)).
  destruct (g a); [reflexivity|].
  apply IH. intros a' Hin. apply Hfg. now right.
Qed.


Lemma firstSome_found {A B} (f : A -> option B) l b :
  firstSome f l = Some b -> exists a, In a l /\ f a = Some b.
Proof.
  induction l as [|a rest IH]; cbn; [discriminate|].
  destruct (f a) as [b'|] eqn:Hfa.
  - intros [= <-]. exists a. auto.
  - intros H. destruct (IH H) as (a' & Hin & Hfa'). exists a'. auto.
Qed.

Lemma firstSome_some {A B} (f : A -> option B) l a b :
  In a l -> f a = Some b -> exists b', firstSome f l = Some b'.
Proof.
  induction l as [|a0 rest IH]; intros Hin Hfa; [destruct Hin|].
  cbn. destruct (f a0) as [b0|] eqn:Hfa0; [now exists b0|].
  destruct Hin as [-> | Hin]; [congruence | now apply IH].
Qed.

Lemma flat_map_nil {A B} (f : A -> list B) l :
  (forall a, In a l -> f a = []) -> flat_map f l = [].
Proof.
  induction l as [|a rest IH]; intros Hf; [reflexivity|].
  cbn. rewrite (Hf a (or_introl eq_refl)).
  apply IH. intros a' Hin. apply Hf. now right.
Qed.

Lemma hd_error_filter {A} (f : A -> bool) l :
  hd_error (filter f l) = find f l.
Proof.
  induction l as [|a rest IH]; [reflexivity|].
  cbn. destruct (f a); [reflexivity | exact IH].
Qed.

Lemma hd_error_app {A} (l1 l2 : list A) :
  hd_error (l1 ++ l2) =
  match hd_error l1 with
  | Some a => Some a
  | None => hd_error l2
  end.
Proof. destruct l1; reflexivity. Qed.

Lemma hd_error_flat_map {A B} (f : A -> list B) l :
  hd_error (flat_map f l) = firstSome (fun a => hd_error (f a)) l.
Proof.
  induction l as [|a rest IH]; [reflexivity|].
  cbn. rewrite hd_error_app, IH. reflexivity.
Qed.

Lemma find_present {A} (f : A -> bool) l a :
  In a l -> f a = true -> exists a', find f l = Some a'.
Proof.
  intros Hin Hfa. destruct (find f l) as [a'|] eqn:Hfind; [eauto|].
  rewrite (find_none f l Hfind a Hin) in Hfa. discriminate.
Qed.

Lemma exceeds_later currentDepth maxDepth (n : nat) :
  exceeds (currentDepth + Z.of_nat n) maxDepth = false ->
  exceeds currentDepth maxDepth = false.
Proof.
  destruct maxDepth as [m|]; cbn; [|reflexivity].
  rewrite !Z.ltb_ge. lia.
Qed.

Lemma documentsAtDepth_below n doc D :
  In D (documentsAtDepth (S n) doc) <->
  exists iframe contentDoc,
    In iframe (querySelectorAll_iframe doc)
    /\ accessible iframe = Some contentDoc
    /\ In D (documentsAtDepth n contentDoc).
Proof.
  cbn [documentsAtDepth]. rewrite in_flat_map. split.
  - intros (iframe & Hin & HD).
    destruct (accessible iframe) as [contentDoc|] eqn:Hacc; [|destruct HD].
    exists iframe, contentDoc. auto.
  - intros (iframe & contentDoc & Hin & Hacc & HD).
    exists iframe. rewrite Hacc. auto.
Qed.

(** *** What any first-match search of this shape finds *)

Section FirstMatch.

Context {R : Type}.
Variable here : Document -> option R.
Variable limit : Number.
Variable search : Document -> Z -> Completion (option R).

Hypothesis search_unfold : forall doc currentDepth,
  search doc currentDepth =
  Normal
    (if exceeds currentDepth limit then None
     else
       match here doc with
       | Some found => Some found
       | None =>
         firstSome (fun iframe =>
                      match accessible iframe with
                      | Some contentDoc => returned (search contentDoc (currentDepth + 1))
                      | None => None
                      end) (querySelectorAll_iframe doc)
       end).

Lemma search_sound doc :
  forall currentDepth found,
    search doc currentDepth = Normal (Some found) ->
    exists (m : nat) D,
      In D (documentsAtDepth m doc) /\ here D = Some found
      /\ exceeds (currentDepth + Z.of_nat m) limit = false.
Proof.
  induction doc as [all IH] using Document_nested_ind.
  intros currentDepth found. rewrite search_unfold.
  destruct (exceeds currentDepth limit) eqn:Hex; [discriminate|].
  destruct (here (Doc all)) as [local|] eqn:Hhere.
  - intros [= <-]. exists 0%nat, (Doc all). cbn. rewrite Z.add_0_r. auto.
  - intros [= Hfirst]. apply firstSome_found in Hfirst.
    destruct Hfirst as (iframe & Hin & Hbelow).
    destruct (accessible iframe) as [contentDoc|] eqn:Hacc; [|discriminate].
    destruct (search contentDoc (currentDepth + 1)) as [[found'|]|err] eqn:Hs;
      cbn in Hbelow; try discriminate.
    injection Hbelow as ->.
    destruct (IH iframe contentDoc Hin (proj1 (accessible_Loaded _ _) Hacc) _ _ Hs)
      as (m & D & HD & Hfound & Hwithin).
    exists (S m), D. split; [|split; [exact Hfound|]].
    + apply documentsAtDepth_below. exists iframe, contentDoc. auto.
    + rewrite <- Hwithin. f_equal. lia.
Qed.

Lemma search_complete (n : nat) :
  forall doc currentDepth D local,
    In D (documentsAtDepth n doc) -> here D = Some local ->
    exceeds (currentDepth + Z.of_nat n) limit = false ->
    exists found, search doc currentDepth = Normal (Some found).
Proof.
  induction n as [|n IH]; intros doc currentDepth D local HD Hhere Hwithin.
  - destruct HD as [<- | []]. rewrite Z.add_0_r in Hwithin.
    rewrite search_unfold, Hwithin, Hhere. eauto.
  - rewrite search_unfold, (exceeds_later _ _ _ Hwithin).
    destruct (here doc) as [local'|]; [eauto|].
    apply documentsAtDepth_below in HD.
    destruct HD as (iframe & contentDoc & Hin & Hacc & HD).
    destruct (IH contentDoc (currentDepth + 1) D local HD Hhere) as (found & Hs).
    { rewrite <- Hwithin. f_equal. lia. }
    destruct (firstSome_some
                (fun iframe =>
                   match accessible iframe with
                   | Some contentDoc => returned (search contentDoc (currentDepth + 1))
                   | None => None
                   end) _ iframe found Hin) as (found' & Hfirst).
    { now rewrite Hacc, Hs. }
    rewrite Hfirst. eauto.
Qed.

(** A match somewhere within the bound makes the search answer a match
    within the bound; a match in the starting document itself makes it
    answer from the starting document. *)
Lemma search_finds (n : nat) doc currentDepth D local :
  In D (documentsAtDepth n doc) -> here D = Some local ->
  exceeds (currentDepth + Z.of_nat n) limit = false ->
  exists found (m : nat) D',
    search doc currentDepth = Normal (Some found)
    /\ In D' (documentsAtDepth m doc) /\ here D' = Some found
    /\ exceeds (currentDepth + Z.of_nat m) limit = false
    /\ (n = 0%nat -> m = 0%nat).
Proof.
  intros HD Hhere Hwithin. destruct n as [|n].
  - destruct HD as [<- | []].
    exists local, 0%nat, doc. cbn in Hwithin |- *. rewrite Z.add_0_r in *.
    rewrite search_unfold, Hwithin, Hhere. auto.
  - destruct (search_complete _ _ _ _ _ HD Hhere Hwithin) as (found & Hs).
    destruct (search_sound _ _ _ Hs) as (m & D' & HD' & Hfound & Hm).
    exists found, m, D'. repeat split; trivial. discriminate.
Qed.

End FirstMatch.

Section FinderTheory.

Variable matches : string -> Element -> bool.
Variable document : Document.
Variable argumentLimit : nat.

(** *** The loops, in closed form *)

Lemma firstResult_closed {R} (recurse : Document -> Completion (option R)) all :
  (fix loop (rest : list Element) : Completion (option R) :=
     match rest with
     | [] => Normal None
     | Other _ _ _ :: rest' => loop rest'
     | IFrameOf iframe :: rest' =>
       step <- tryCatch
                 (match content iframe with
                  | CrossOrigin => Throw SecurityError
                  | NotLoaded => Normal None
                  | Loaded contentDoc =>
                    foundInNested <- recurse contentDoc ;;
                    match foundInNested with
                    | Some found => Normal (Some found)
                    | None => Normal None
                    end
                  end)
                 (fun _ => Normal None) ;;
       match step with
       | Some found => Normal (Some found)
       | None => loop rest'
       end
     end) all
  = Normal (firstSome (fun iframe =>
                         match accessible iframe with
                         | Some contentDoc => returned (recurse contentDoc)
                         | None => None
                         end) (iframesOf all)).
Proof.
  induction all as [|e rest IH]; [reflexivity|].
  destruct e as [tag i c | [i n c ctx]]; [exact IH|].
  cbn [iframesOf firstSome].
  unfold accessible, contentDocument. cbn [content].
  destruct ctx as [contentDoc| |]; cbn; try exact IH.
  destruct (recurse contentDoc) as [[found|]|err]; cbn; try exact IH.
  reflexivity.
Qed.

Lemma allResults_closed (recurse : Document -> list Element -> Completion unit * list Element)
    all results :
  (fix loop (rest : list Element) (results : list Element)
     : Completion unit * list Element :=
     match rest with
     | [] => (Normal tt, results)
     | Other _ _ _ :: rest' => loop rest' results
     | IFrameOf iframe :: rest' =>
       let '(step, results) :=
         tryCatchWith
           (match content iframe with
            | CrossOrigin => (Throw SecurityError, results)
            | NotLoaded => (Normal tt, results)
            | Loaded contentDoc => recurse contentDoc results
            end)
           (fun _ results => (Normal tt, results)) in
       match step with
       | Normal _ => loop rest' results
       | Throw err => (Throw err, results)
       end
     end) all results
  = (Normal tt,
     fold_left (fun results iframe =>
                  match accessible iframe with
                  | Some contentDoc => snd (recurse contentDoc results)
                  | None => results
                  end) (iframesOf all) results).
Proof.
  revert results.
  induction all as [|e rest IH]; intros results; [reflexivity|].
  destruct e as [tag i c | [i n c ctx]]; [exact (IH results)|].
  cbn [iframesOf fold_left].
  unfold accessible, contentDocument. cbn [content].
  destruct ctx as [contentDoc| |]; cbn; try exact (IH results).
  destruct (recurse contentDoc results) as [[[]|err] results']; cbn; exact (IH results').
Qed.

(** *** One call, unfolded *)

Lemma findIframeRecursive_unfold predicate doc currentDepth maxDepth :
  findIframeRecursive predicate doc currentDepth maxDepth =
  Normal
    (if exceeds currentDepth maxDepth then None
     else
       match find predicate (querySelectorAll_iframe doc) with
       | Some iframe => Some iframe
       | None =>
         firstSome (foundBelow predicate currentDepth maxDepth)
                   (querySelectorAll_iframe doc)
       end).
Proof.
  destruct doc as [all]. cbn [findIframeRecursive].
  destruct (exceeds currentDepth maxDepth); [reflexivity|].
  destruct (find predicate (querySelectorAll_iframe (Doc all))); [reflexivity|].
  apply (firstResult_closed
           (fun contentDoc =>
              findIframeRecursive predicate contentDoc (currentDepth + 1) maxDepth)).
Qed.

Lemma findElementRecursive_unfold selector doc currentDepth maxDepth :
  findElementRecursive matches selector doc currentDepth maxDepth =
  Normal
    (if exceeds currentDepth maxDepth then None
     else
       match querySelector matches selector doc with
       | Some element => Some element
       | None =>
         firstSome (elementBelow matches selector currentDepth maxDepth)
                   (querySelectorAll_iframe doc)
       end).
Proof.
  destruct doc as [all]. cbn [findElementRecursive].
  destruct (exceeds currentDepth maxDepth); [reflexivity|].
  destruct (querySelector matches selector (Doc all)); [reflexivity|].
  apply (firstResult_closed
           (fun contentDoc =>
              findElementRecursive matches selector contentDoc (currentDepth + 1) maxDepth)).
Qed.

Lemma findAllElementsRecursive_unfold selector doc currentDepth maxDepth results :
  findAllElementsRecursive matches argumentLimit selector doc currentDepth maxDepth results =
  if exceeds currentDepth maxDepth then (Normal tt, results)
  else if fits argumentLimit (querySelectorAll matches selector doc) then
    (Normal tt,
     fold_left (fun results iframe =>
                  match accessible iframe with
                  | Some contentDoc =>
                    snd (findAllElementsRecursive matches argumentLimit selector contentDoc
                           (currentDepth + 1) maxDepth results)
                  | None => results
                  end)
               (querySelectorAll_iframe doc)
               (results ++ querySelectorAll matches selector doc))
  else (Throw RangeError, results).
Proof.
  destruct doc as [all]. cbn [findAllElementsRecursive].
  destruct (exceeds currentDepth maxDepth); [reflexivity|].
  unfold push.
  destruct (fits argumentLimit (querySelectorAll matches selector (Doc all)));
    [|reflexivity].
  apply (allResults_closed
           (fun contentDoc results =>
              findAllElementsRecursive matches argumentLimit selector contentDoc
                (currentDepth + 1) maxDepth results)).
Qed.

(** *** The accumulator only grows at its end *)

Lemma fold_left_pushes (recurse : Document -> list Element -> Completion unit * list Element)
    iframes :
  (forall iframe contentDoc,
     In iframe iframes -> accessible iframe = Some contentDoc ->
     forall results, snd (recurse contentDoc results) = results ++ snd (recurse contentDoc [])) ->
  forall results,
    fold_left (fun results iframe =>
                 match accessible iframe with
                 | Some contentDoc => snd (recurse contentDoc results)
                 | None => results
                 end) iframes results
    = results ++ flat_map (fun iframe =>
                             match accessible iframe with
                             | Some contentDoc => snd (recurse contentDoc [])
                             | None => []
                             end) iframes.
Proof.
  induction iframes as [|iframe rest IH]; intros Hrec results; cbn.
  - now rewrite app_nil_r.
  - rewrite IH by (intros iframe' contentDoc' Hin' Hacc';
                   apply (Hrec iframe' contentDoc'); [right|]; assumption).
    destruct (accessible iframe) as [contentDoc|] eqn:Hacc.
    + rewrite (Hrec iframe contentDoc (or_introl eq_refl) Hacc results).
      now rewrite app_assoc.
    + reflexivity.
Qed.

Lemma findAllElementsRecursive_pushes selector doc :
  forall currentDepth maxDepth results,
    snd (findAllElementsRecursive matches argumentLimit selector doc currentDepth maxDepth results)
    = results ++ collected matches argumentLimit selector doc currentDepth maxDepth.
Proof.
  induction doc as [all IH] using Document_nested_ind.
  intros currentDepth maxDepth results. unfold collected.
  rewrite !findAllElementsRecursive_unfold.
  destruct (exceeds currentDepth maxDepth); [cbn; now rewrite app_nil_r|].
  destruct (fits argumentLimit (querySelectorAll matches selector (Doc all)));
    [|cbn; now rewrite app_nil_r].
  cbn [snd].
  assert (Hrec : forall iframe contentDoc,
             In iframe (querySelectorAll_iframe (Doc all)) ->
             accessible iframe = Some contentDoc ->
             forall results,
               snd (findAllElementsRecursive matches argumentLimit selector contentDoc
                      (currentDepth + 1) maxDepth results)
               = results ++ snd (findAllElementsRecursive matches argumentLimit selector
                                   contentDoc (currentDepth + 1) maxDepth [])).
  { intros iframe contentDoc Hin Hacc results'.
    apply accessible_Loaded in Hacc.
    exact (IH iframe contentDoc Hin Hacc (currentDepth + 1) maxDepth results'). }
  rewrite !(fold_left_pushes
              (fun contentDoc results =>
                 findAllElementsRecursive matches argumentLimit selector contentDoc
                   (currentDepth + 1) maxDepth results) _ Hrec).
  cbn [app]. now rewrite app_assoc.
Qed.

Lemma collected_unfold selector doc currentDepth maxDepth :
  collected matches argumentLimit selector doc currentDepth maxDepth =
  if exceeds currentDepth maxDepth then []
  else if fits argumentLimit (querySelectorAll matches selector doc) then
    querySelectorAll matches selector doc
    ++ flat_map (collectedBelow matches argumentLimit selector currentDepth maxDepth)
                (querySelectorAll_iframe doc)
  else [].
Proof.
  unfold collected at 1. rewrite findAllElementsRecursive_unfold.
  destruct (exceeds currentDepth maxDepth); [reflexivity|].
  destruct (fits argumentLimit (querySelectorAll matches selector doc)); [|reflexivity].
  cbn [snd].
  rewrite (fold_left_pushes
             (fun contentDoc results =>
                findAllElementsRecursive matches argumentLimit selector contentDoc
                  (currentDepth + 1) maxDepth results)).
  - reflexivity.
  - intros iframe contentDoc _ _ results.
    apply findAllElementsRecursive_pushes.
Qed.

Lemma findAllElementsRecursive_closed selector doc currentDepth maxDepth results :
  findAllElementsRecursive matches argumentLimit selector doc currentDepth maxDepth results
  = (if exceeds currentDepth maxDepth
        || fits argumentLimit (querySelectorAll matches selector doc)
     then Normal tt else Throw RangeError,
     results ++ collected matches argumentLimit selector doc currentDepth maxDepth).
Proof.
  rewrite <- findAllElementsRecursive_pushes.
  rewrite findAllElementsRecursive_unfold.
  destruct (exceeds currentDepth maxDepth); [reflexivity|].
  destruct (fits argumentLimit (querySelectorAll matches selector doc)); reflexivity.
Qed.

Lemma findAllElements_closed selector options :
  findAllElements matches document argumentLimit selector options
  = if exceeds 0 (default Infinity (maxDepth options))
       || fits argumentLimit
            (querySelectorAll matches selector (default document (rootDocument options)))
    then Normal (collected matches argumentLimit selector
                   (default document (rootDocument options)) 0
                   (default Infinity (maxDepth options)))
    else Throw RangeError.
Proof.
  unfold findAllElements. rewrite findAllElementsRecursive_closed.
  destruct (exceeds 0 (default Infinity (maxDepth options))
            || fits argumentLimit
                 (querySelectorAll matches selector
                    (default document (rootDocument options)))); reflexivity.
Qed.

(** *** Below the depth bound nothing is found *)

Lemma foundBelow_at_bound predicate (m : Z) iframe :
  foundBelow predicate m (Int m) iframe = None.
Proof.
  unfold foundBelow. destruct (accessible iframe); [|reflexivity].
  rewrite findIframeRecursive_unfold. cbn.
  replace (m <? m + 1) with true by (symmetry; apply Z.ltb_lt; lia).
  reflexivity.
Qed.

Lemma elementBelow_at_bound selector (m : Z) iframe :
  elementBelow matches selector m (Int m) iframe = None.
Proof.
  unfold elementBelow. destruct (accessible iframe); [|reflexivity].
  rewrite findElementRecursive_unfold. cbn.
  replace (m <? m + 1) with true by (symmetry; apply Z.ltb_lt; lia).
  reflexivity.
Qed.

Lemma collectedBelow_at_bound selector (m : Z) iframe :
  collectedBelow matches argumentLimit selector m (Int m) iframe = [].
Proof.
  unfold collectedBelow. destruct (accessible iframe); [|reflexivity].
  rewrite collected_unfold. cbn.
  replace (m <? m + 1) with true by (symmetry; apply Z.ltb_lt; lia).
  reflexivity.
Qed.

(** *** The claims *)

(** C1. At each document the first-match traversal makes two passes.
    Past the bound it answers "not found".  Otherwise pass 1 tests the
    iframes lying directly in the document, in document order, and
    answers the first that satisfies the predicate; only when there is
    none, pass 2 goes through the same iframes in the same order,
    recurses into each accessible nested document one level deeper, and
    answers the first recursive result that is not absent.
    [findIframe], [findIframeById] and [findIframeByName] all start this
    traversal at depth 0. *)
Theorem findIframeRecursive_two_pass predicate doc currentDepth limit :
  findIframeRecursive predicate doc currentDepth limit =
  Normal
    (if exceeds currentDepth limit then None
     else
       let iframes := querySelectorAll_iframe doc in
       match find predicate iframes with
       | Some iframe => Some iframe
       | None =>
         firstSome
           (fun iframe =>
              match accessible iframe with
              | Some contentDoc =>
                returned (findIframeRecursive predicate contentDoc
                            (currentDepth + 1) limit)
              | None => None
              end)
           iframes
       end)
  /\ (forall options,
        findIframe document predicate options
        = findIframeRecursive predicate
            (default document (rootDocument options)) 0
            (default Infinity (maxDepth options)))
  /\ (forall id options,
        findIframeById document id options
        = findIframeRecursive (fun iframe => String.eqb (iframe_id iframe) id)
            (default document (rootDocument options)) 0
            (default Infinity (maxDepth options)))
  /\ (forall name options,
        findIframeByName document name options
        = findIframeRecursive (fun iframe => String.eqb (iframe_name iframe) name)
            (default document (rootDocument options)) 0
            (default Infinity (maxDepth options))).
Proof.
  split; [apply findIframeRecursive_unfold|].
  repeat split.
Qed.

(** C2. The depth check is a strict excess.  With [maxDepth = 0] the
    root document is still searched, and the answer is the first match
    lying directly in the root, whatever the nested documents hold; with
    [maxDepth = 1] the answer is that match or else the first match lying
    directly in a document one level down, and nothing deeper counts.
    The same holds of [findElement]. *)
Theorem maxDepth_boundary predicate selector root :
  (forall currentDepth m, exceeds currentDepth (Int m) = true <-> m < currentDepth)
  /\ findIframe document predicate (mkOptions (Some root) (Some (Int 0)))
     = Normal (find predicate (querySelectorAll_iframe root))
  /\ findElement matches document selector (mkOptions (Some root) (Some (Int 0)))
     = Normal (querySelector matches selector root)
  /\ findIframe document predicate (mkOptions (Some root) (Some (Int 1)))
     = Normal
         match find predicate (querySelectorAll_iframe root) with
         | Some iframe => Some iframe
         | None =>
           firstSome
             (fun iframe =>
                match accessible iframe with
                | Some contentDoc => find predicate (querySelectorAll_iframe contentDoc)
                | None => None
                end)
             (querySelectorAll_iframe root)
         end
  /\ findElement matches document selector (mkOptions (Some root) (Some (Int 1)))
     = Normal
         match querySelector matches selector root with
         | Some element => Some element
         | None =>
           firstSome
             (fun iframe =>
                match accessible iframe with
                | Some contentDoc => querySelector matches selector contentDoc
                | None => None
                end)
             (querySelectorAll_iframe root)
         end.
Proof.
  split; [intros currentDepth m; apply Z.ltb_lt|].
  unfold findIframe, findElement. cbn [default rootDocument maxDepth].
  repeat split.
  - rewrite findIframeRecursive_unfold. cbn [exceeds Z.ltb Z.compare].
    destruct (find predicate (querySelectorAll_iframe root)); [reflexivity|].
    f_equal. apply firstSome_none. intros iframe _.
    apply (foundBelow_at_bound predicate 0).
  - rewrite findElementRecursive_unfold. cbn [exceeds Z.ltb Z.compare].
    destruct (querySelector matches selector root); [reflexivity|].
    f_equal. apply firstSome_none. intros iframe _.
    apply (elementBelow_at_bound selector 0).
  - rewrite findIframeRecursive_unfold. cbn [exceeds Z.ltb Z.compare].
    destruct (find predicate (querySelectorAll_iframe root)); [reflexivity|].
    f_equal. apply firstSome_ext. intros iframe _. unfold foundBelow.
    destruct (accessible iframe) as [contentDoc|]; [|reflexivity].
    rewrite findIframeRecursive_unfold. cbn.
    destruct (find predicate (querySelectorAll_iframe contentDoc)); [reflexivity|].
    apply firstSome_none. intros iframe' _.
    apply (foundBelow_at_bound predicate 1).
  - rewrite findElementRecursive_unfold. cbn [exceeds Z.ltb Z.compare].
    destruct (querySelector matches selector root); [reflexivity|].
    f_equal. apply firstSome_ext. intros iframe _. unfold elementBelow.
    destruct (accessible iframe) as [contentDoc|]; [|reflexivity].
    rewrite findElementRecursive_unfold. cbn.
    destruct (querySelector matches selector contentDoc); [reflexivity|].
    apply firstSome_none. intros iframe' _.
    apply (elementBelow_at_bound selector 1).
Qed.

(** C3, amended.  When some match lies within the depth bound, the
    search answers a match that lies within the bound, and it answers
    from the starting document whenever that document itself holds a
    match: at every document the traversal visits, a match lying directly
    in it is preferred to any match nested below it.  (Minimal depth among
    all the matches is not promised.)  The same holds of the element
    search. *)
Theorem first_match_within_bound predicate selector doc currentDepth limit (n : nat) :
  exceeds (currentDepth + Z.of_nat n) limit = false ->
  (forall iframe,
     In iframe (iframesAtDepth n doc) -> predicate iframe = true ->
     exists found (m : nat),
       findIframeRecursive predicate doc currentDepth limit = Normal (Some found)
       /\ predicate found = true
       /\ In found (iframesAtDepth m doc)
       /\ exceeds (currentDepth + Z.of_nat m) limit = false
       /\ (n = 0%nat -> m = 0%nat))
  /\ (forall element,
        In element (elementsAtDepth n doc) -> matches selector element = true ->
        exists found (m : nat),
          findElementRecursive matches selector doc currentDepth limit = Normal (Some found)
          /\ matches selector found = true
          /\ In found (elementsAtDepth m doc)
          /\ exceeds (currentDepth + Z.of_nat m) limit = false
          /\ (n = 0%nat -> m = 0%nat))
  /\ findIframe document predicate (mkOptions (Some doc) (Some limit))
     = findIframeRecursive predicate doc 0 limit
  /\ findElement matches document selector (mkOptions (Some doc) (Some limit))
     = findElementRecursive matches selector doc 0 limit.
Proof.
  intros Hwithin. split; [|split; [|split; reflexivity]].
  - intros iframe Hin Hp.
    apply in_flat_map in Hin. destruct Hin as (D & HD & Hin).
    destruct (find_present predicate _ _ Hin Hp) as (local & Hlocal).
    destruct (search_finds
                (fun D => find predicate (querySelectorAll_iframe D)) limit
                (fun doc currentDepth => findIframeRecursive predicate doc currentDepth limit)
                (fun doc currentDepth =>
                   findIframeRecursive_unfold predicate doc currentDepth limit)
                n doc currentDepth D local HD Hlocal Hwithin)
      as (found & m & D' & Hs & HD' & Hfound & Hm & Hzero).
    apply find_some in Hfound. destruct Hfound as (Hin' & Hp').
    exists found, m. repeat split; trivial.
    apply in_flat_map. exists D'. auto.
  - intros element Hin Hp.
    apply in_flat_map in Hin. destruct Hin as (D & HD & Hin).
    destruct (find_present (matches selector) _ _ Hin Hp) as (local & Hlocal).
    destruct (search_finds
                (fun D => querySelector matches selector D) limit
                (fun doc currentDepth =>
                   findElementRecursive matches selector doc currentDepth limit)
                (fun doc currentDepth =>
                   findElementRecursive_unfold selector doc currentDepth limit)
                n doc currentDepth D local HD Hlocal Hwithin)
      as (found & m & D' & Hs & HD' & Hfound & Hm & Hzero).
    apply find_some in Hfound. destruct Hfound as (Hin' & Hp').
    exists found, m. repeat split; trivial.
    apply in_flat_map. exists D'. auto.
Qed.

(** C5. [findAllIframes] does not descend: it answers exactly the
    iframes lying directly in the root document that satisfy the
    predicate, in document order.  What the predicate says of any other
    iframe has no influence: an iframe B inside the document of a root
    iframe A is neither tested nor returned, also when the predicate
    holds of it. *)
Theorem findAllIframes_single_level predicate root :
  findAllIframes document predicate (Some root)
  = filter predicate (querySelectorAll_iframe root)
  /\ findAllIframes document predicate None
     = filter predicate (querySelectorAll_iframe document)
  /\ (forall iframe,
        In iframe (findAllIframes document predicate (Some root)) <->
        In iframe (iframesAtDepth 0 root) /\ predicate iframe = true)
  /\ (forall predicate' : IframePredicate,
        (forall iframe, In iframe (iframesAtDepth 0 root) ->
                        predicate' iframe = predicate iframe) ->
        findAllIframes document predicate' (Some root)
        = findAllIframes document predicate (Some root))
  /\ (forall A B,
        root = Doc [IFrameOf A] -> accessible A = Some (Doc [IFrameOf B]) ->
        predicate A = true -> predicate B = true ->
        findAllIframes document predicate (Some root) = [A]).
Proof.
  unfold findAllIframes, iframesAtDepth. cbn [documentsAtDepth flat_map default].
  rewrite app_nil_r.
  split; [reflexivity|]. split; [reflexivity|]. split; [|split].
  - intros iframe. apply filter_In.
  - intros predicate' Hsame. apply filter_ext_in. exact Hsame.
  - intros A B -> _ HA _. cbn. now rewrite HA.
Qed.

(** C8. [findIframeById] is [findIframe] on the predicate "the id
    attribute is exactly this string", [findIframeByName] is [findIframe]
    on "the name attribute is exactly this string": same traversal, same
    options. *)
Theorem findIframeById_ByName_specialise id name options :
  findIframeById document id options
  = findIframe document (fun iframe => String.eqb (iframe_id iframe) id) options
  /\ findIframeByName document name options
     = findIframe document (fun iframe => String.eqb (iframe_name iframe) name) options
  /\ (forall iframe, String.eqb (iframe_id iframe) id = true <-> iframe_id iframe = id)
  /\ (forall iframe, String.eqb (iframe_name iframe) name = true <-> iframe_name iframe = name).
Proof.
  repeat split; try (apply String.eqb_eq).
Qed.

(** C10. With a negative [maxDepth] the initial depth 0 already exceeds
    the bound: whatever the root document, [findIframe],
    [findIframeById], [findIframeByName] and [findElement] answer absent
    and [findAllElements] answers the empty sequence. *)
Theorem negative_maxDepth_empty (m : Z) predicate id name selector root :
  m < 0 ->
  findIframe document predicate (mkOptions root (Some (Int m))) = Normal None
  /\ findIframeById document id (mkOptions root (Some (Int m))) = Normal None
  /\ findIframeByName document name (mkOptions root (Some (Int m))) = Normal None
  /\ findElement matches document selector (mkOptions root (Some (Int m))) = Normal None
  /\ findAllElements matches document argumentLimit selector (mkOptions root (Some (Int m))) = Normal [].
Proof.
  intros Hm.
  assert (Hex : exceeds 0 (Int m) = true) by (apply Z.ltb_lt; exact Hm).
  unfold findIframe, findIframeById, findIframeByName, findElement.
  rewrite findAllElements_closed. cbn [default rootDocument maxDepth].
  rewrite !findIframeRecursive_unfold, findElementRecursive_unfold, collected_unfold.
  rewrite Hex. repeat split.
Qed.

End FinderTheory.

(** ** The claims on the sample documents *)

(** C3, as stated, fails.  The traversal is depth-first: below the
    root it finishes the subtree of [left], where the only match lies two
    levels down, before it looks at the document of [right], where a match
    lies one level down. *)
Lemma shallower_sibling_match_loses :
  findIframe pageLeftRight (hasClass "hit") noOptions = Normal (Some deepHit)
  /\ hasClass "hit" shallowHit = true
  /\ In shallowHit (iframesAtDepth 1 pageLeftRight)
  /\ In deepHit (iframesAtDepth 2 pageLeftRight)
  /\ ~ In deepHit (iframesAtDepth 0 pageLeftRight ++ iframesAtDepth 1 pageLeftRight)
  /\ findElement matchesClass pageLeftRight ".box" noOptions = Normal (Some deepDiv)
  /\ matchesClass ".box" shallowDiv = true
  /\ In shallowDiv (elementsAtDepth 1 pageLeftRight)
  /\ In deepDiv (elementsAtDepth 2 pageLeftRight)
  /\ ~ In deepDiv (elementsAtDepth 0 pageLeftRight ++ elementsAtDepth 1 pageLeftRight)
  /\ ~ (forall found (n : nat) iframe,
          findIframe pageLeftRight (hasClass "hit") noOptions = Normal (Some found) ->
          In iframe (iframesAtDepth n pageLeftRight) -> hasClass "hit" iframe = true ->
          exists m : nat, (m <= n)%nat /\ In found (iframesAtDepth m pageLeftRight)).
Proof.
  assert (Hiframes : ~ In deepHit (iframesAtDepth 0 pageLeftRight
                                   ++ iframesAtDepth 1 pageLeftRight)).
  { cbv. intros [H | [H | [H | [H | []]]]]; discriminate. }
  repeat split; try reflexivity; try exact Hiframes; try (cbn; auto; fail).
  - cbv. intros [H | [H | [H | [H | [H | []]]]]]; discriminate.
  - intros Hclaim.
    destruct (Hclaim deepHit 1%nat shallowHit eq_refl) as (m & Hm & Hin);
      [cbn; auto | reflexivity |].
    apply Hiframes. apply in_or_app.
    destruct m as [|[|m]]; [left | right | lia]; exact Hin.
Qed.

Lemma first_match_within_bound_witness :
  exceeds (0 + Z.of_nat 1) Infinity = false
  /\ (exists found (m : nat),
        findIframeRecursive (hasClass "hit") pageLeftRight 0 Infinity = Normal (Some found)
        /\ hasClass "hit" found = true
        /\ In found (iframesAtDepth m pageLeftRight)
        /\ exceeds (0 + Z.of_nat m) Infinity = false
        /\ (1%nat = 0%nat -> m = 0%nat)).
Proof.
  split; [reflexivity|].
  apply (proj1 (first_match_within_bound matchesClass pageLeftRight (hasClass "hit") ".box"
                  pageLeftRight 0 Infinity 1 eq_refl) shallowHit).
  - cbn. auto.
  - reflexivity.
Defined.

Lemma negative_maxDepth_empty_witness :
  -1 < 0
  /\ (findIframe pageAB (hasClass "hit") (mkOptions None (Some (Int (-1)))) = Normal None
      /\ findIframeById pageAB "target" (mkOptions None (Some (Int (-1)))) = Normal None
      /\ findIframeByName pageAB "main" (mkOptions None (Some (Int (-1)))) = Normal None
      /\ findElement matchesClass pageAB ".foo" (mkOptions None (Some (Int (-1))))
         = Normal None
      /\ findAllElements matchesClass pageAB 0 ".foo" (mkOptions None (Some (Int (-1))))
         = Normal []).
Proof.
  split; [reflexivity|].
  apply (negative_maxDepth_empty matchesClass pageAB 0 (-1)). reflexivity.
Defined.

Lemma findAllIframes_single_level_witness :
  findAllIframes pageAB (fun _ => true) (Some (Doc [IFrameOf frameB])) = [frameB].
Proof.
  apply (proj2 (proj2 (proj2 (proj2
           (findAllIframes_single_level pageAB (fun _ => true) (Doc [IFrameOf frameB])))))
         frameB frameTarget); reflexivity.
Defined.

(** The scenarios of the specification. *)

Example target_two_levels_down :
  findIframeById pageAB "target" noOptions = Normal (Some frameTarget)
  /\ findIframeById pageAB "target" (mkOptions None (Some (Int 0))) = Normal None.
Proof. split; reflexivity. Qed.

Example first_of_two_at_the_same_depth :
  findIframe pageAB (fun _ => true) noOptions = Normal (Some frameA).
Proof. reflexivity. Qed.

Example found_beside_a_cross_origin_iframe :
  findElement matchesClass pageBlocked ".foo" noOptions = Normal (Some fooDiv).
Proof. reflexivity. Qed.

(** ** Further properties of the searches *)

Lemma iframesAtDepth_below n doc found :
  In found (iframesAtDepth (S n) doc) <->
  exists iframe contentDoc,
    In iframe (querySelectorAll_iframe doc)
    /\ accessible iframe = Some contentDoc
    /\ In found (iframesAtDepth n contentDoc).
Proof.
  unfold iframesAtDepth. rewrite in_flat_map. split.
  - intros (D & HD & Hin). apply documentsAtDepth_below in HD.
    destruct HD as (iframe & contentDoc & Hi & Hacc & HD).
    exists iframe, contentDoc. repeat split; trivial.
    apply in_flat_map. eauto.
  - intros (iframe & contentDoc & Hi & Hacc & Hin).
    apply in_flat_map in Hin. destruct Hin as (D & HD & Hin).
    exists D. split; [|exact Hin].
    apply documentsAtDepth_below. eauto.
Qed.

Lemma elementsAtDepth_below n doc found :
  In found (elementsAtDepth (S n) doc) <->
  exists iframe contentDoc,
    In iframe (querySelectorAll_iframe doc)
    /\ accessible iframe = Some contentDoc
    /\ In found (elementsAtDepth n contentDoc).
Proof.
  unfold elementsAtDepth. rewrite in_flat_map. split.
  - intros (D & HD & Hin). apply documentsAtDepth_below in HD.
    destruct HD as (iframe & contentDoc & Hi & Hacc & HD).
    exists iframe, contentDoc. repeat split; trivial.
    apply in_flat_map. eauto.
  - intros (iframe & contentDoc & Hi & Hacc & Hin).
    apply in_flat_map in Hin. destruct Hin as (D & HD & Hin).
    exists D. split; [|exact Hin].
    apply documentsAtDepth_below. eauto.
Qed.

Lemma elementsAtDepth_0 doc : elementsAtDepth 0 doc = elements doc.
Proof. unfold elementsAtDepth. cbn. apply app_nil_r. Qed.

Lemma iframesAtDepth_0 doc : iframesAtDepth 0 doc = querySelectorAll_iframe doc.
Proof. unfold iframesAtDepth. cbn. apply app_nil_r. Qed.

Section FirstMatchAbsent.

Context {R : Type}.
Variable here : Document -> option R.
Variable limit : Number.
Variable search : Document -> Z -> Completion (option R).

Hypothesis search_unfold : forall doc currentDepth,
  search doc currentDepth =
  Normal
    (if exceeds currentDepth limit then None
     else
       match here doc with
       | Some found => Some found
       | None =>
         firstSome (fun iframe =>
                      match accessible iframe with
                      | Some contentDoc => returned (search contentDoc (currentDepth + 1))
                      | None => None
                      end) (querySelectorAll_iframe doc)
       end).

Lemma search_absent_iff doc currentDepth :
  search doc currentDepth = Normal None <->
  (forall (n : nat) D,
     exceeds (currentDepth + Z.of_nat n) limit = false ->
     In D (documentsAtDepth n doc) -> here D = None).
Proof.
  split.
  - intros Habsent n D Hwithin HD.
    destruct (here D) as [local|] eqn:Hhere; [|reflexivity].
    destruct (search_complete here limit search search_unfold
                n doc currentDepth D local HD Hhere Hwithin) as (found & Hs).
    rewrite Hs in Habsent. discriminate.
  - intros Hnone.
    destruct (search doc currentDepth) as [[found|]|err] eqn:Hs.
    + destruct (search_sound here limit search search_unfold doc currentDepth found Hs)
        as (m & D & HD & Hfound & Hwithin).
      rewrite (Hnone m D Hwithin HD) in Hfound. discriminate.
    + reflexivity.
    + rewrite search_unfold in Hs. discriminate.
Qed.

End FirstMatchAbsent.

Lemma findIframeRecursive_sound predicate doc currentDepth limit found :
  findIframeRecursive predicate doc currentDepth limit = Normal (Some found) ->
  predicate found = true
  /\ exists m : nat,
       In found (iframesAtDepth m doc)
       /\ exceeds (currentDepth + Z.of_nat m) limit = false.
Proof.
  intros Hs.
  destruct (search_sound
              (fun D => find predicate (querySelectorAll_iframe D)) limit
              (fun doc currentDepth => findIframeRecursive predicate doc currentDepth limit)
              (fun doc currentDepth =>
                 findIframeRecursive_unfold predicate doc currentDepth limit)
              doc currentDepth found Hs) as (m & D & HD & Hfound & Hwithin).
  apply find_some in Hfound. destruct Hfound as (Hin & Hp).
  split; [exact Hp|]. exists m. split; [|exact Hwithin].
  apply in_flat_map. eauto.
Qed.

Lemma findIframeRecursive_absent_iff predicate doc currentDepth limit :
  findIframeRecursive predicate doc currentDepth limit = Normal None <->
  (forall (n : nat) iframe,
     exceeds (currentDepth + Z.of_nat n) limit = false ->
     In iframe (iframesAtDepth n doc) -> predicate iframe = false).
Proof.
  rewrite (search_absent_iff
             (fun D => find predicate (querySelectorAll_iframe D)) limit
             (fun doc currentDepth => findIframeRecursive predicate doc currentDepth limit)
             (fun doc currentDepth =>
                findIframeRecursive_unfold predicate doc currentDepth limit)).
  split.
  - intros Hnone n iframe Hwithin Hin.
    apply in_flat_map in Hin. destruct Hin as (D & HD & Hin).
    exact (find_none _ _ (Hnone n D Hwithin HD) iframe Hin).
  - intros Hnone n D Hwithin HD.
    destruct (find predicate (querySelectorAll_iframe D)) as [found|] eqn:Hfind;
      [|reflexivity].
    apply find_some in Hfind. destruct Hfind as (Hin & Hp).
    rewrite (Hnone n found Hwithin) in Hp; [discriminate|].
    apply in_flat_map. eauto.
Qed.

Section FinderProperties.

Variable matches : string -> Element -> bool.
Variable document : Document.
Variable argumentLimit : nat.

Lemma findElementRecursive_sound selector doc currentDepth limit found :
  findElementRecursive matches selector doc currentDepth limit = Normal (Some found) ->
  matches selector found = true
  /\ exists m : nat,
       In found (elementsAtDepth m doc)
       /\ exceeds (currentDepth + Z.of_nat m) limit = false.
Proof.
  intros Hs.
  destruct (search_sound
              (fun D => querySelector matches selector D) limit
              (fun doc currentDepth =>
                 findElementRecursive matches selector doc currentDepth limit)
              (fun doc currentDepth =>
                 findElementRecursive_unfold matches selector doc currentDepth limit)
              doc currentDepth found Hs) as (m & D & HD & Hfound & Hwithin).
  apply find_some in Hfound. destruct Hfound as (Hin & Hp).
  split; [exact Hp|]. exists m. split; [|exact Hwithin].
  apply in_flat_map. eauto.
Qed.

Lemma findElementRecursive_absent_iff selector doc currentDepth limit :
  findElementRecursive matches selector doc currentDepth limit = Normal None <->
  (forall (n : nat) element,
     exceeds (currentDepth + Z.of_nat n) limit = false ->
     In element (elementsAtDepth n doc) -> matches selector element = false).
Proof.
  rewrite (search_absent_iff
             (fun D => querySelector matches selector D) limit
             (fun doc currentDepth =>
                findElementRecursive matches selector doc currentDepth limit)
             (fun doc currentDepth =>
                findElementRecursive_unfold matches selector doc currentDepth limit)).
  split.
  - intros Hnone n element Hwithin Hin.
    apply in_flat_map in Hin. destruct Hin as (D & HD & Hin).
    exact (find_none _ _ (Hnone n D Hwithin HD) element Hin).
  - intros Hnone n D Hwithin HD. unfold querySelector.
    destruct (find (matches selector) (elements D)) as [found|] eqn:Hfind;
      [|reflexivity].
    apply find_some in Hfind. destruct Hfind as (Hin & Hp).
    rewrite (Hnone n found Hwithin) in Hp; [discriminate|].
    apply in_flat_map. eauto.
Qed.

(** X1. An iframe that [findIframe] returns satisfies the predicate and
    lies in the root document or in a document reached from it through
    accessible iframes, at a depth the bound allows. *)
Theorem findIframe_sound predicate options found :
  findIframe document predicate options = Normal (Some found) ->
  predicate found = true
  /\ exists m : nat,
       In found (iframesAtDepth m (default document (rootDocument options)))
       /\ exceeds (Z.of_nat m) (default Infinity (maxDepth options)) = false.
Proof.
  intros Hs. apply findIframeRecursive_sound in Hs. exact Hs.
Qed.

(** X2. An element that [findElement] returns matches the selector and
    lies in the root document or in a document reached from it through
    accessible iframes, at a depth the bound allows. *)
Theorem findElement_sound selector options found :
  findElement matches document selector options = Normal (Some found) ->
  matches selector found = true
  /\ exists m : nat,
       In found (elementsAtDepth m (default document (rootDocument options)))
       /\ exceeds (Z.of_nat m) (default Infinity (maxDepth options)) = false.
Proof.
  intros Hs. apply findElementRecursive_sound in Hs. exact Hs.
Qed.

(** X3. [findIframe] answers absent exactly when no iframe of any
    document reachable within the bound satisfies the predicate. *)
Theorem findIframe_absent_iff predicate options :
  findIframe document predicate options = Normal None <->
  (forall (n : nat) iframe,
     exceeds (Z.of_nat n) (default Infinity (maxDepth options)) = false ->
     In iframe (iframesAtDepth n (default document (rootDocument options))) ->
     predicate iframe = false).
Proof.
  unfold findIframe. apply findIframeRecursive_absent_iff.
Qed.

(** X4. [findElement] answers absent exactly when no element of any
    document reachable within the bound matches the selector. *)
Theorem findElement_absent_iff selector options :
  findElement matches document selector options = Normal None <->
  (forall (n : nat) element,
     exceeds (Z.of_nat n) (default Infinity (maxDepth options)) = false ->
     In element (elementsAtDepth n (default document (rootDocument options))) ->
     matches selector element = false).
Proof.
  unfold findElement. apply findElementRecursive_absent_iff.
Qed.

Lemma allFit_here selector doc currentDepth limit :
  allFit matches argumentLimit selector doc currentDepth limit ->
  exceeds currentDepth limit = false ->
  fits argumentLimit (querySelectorAll matches selector doc) = true.
Proof.
  intros Hfit Hex. apply (Hfit 0%nat doc); [now rewrite Z.add_0_r | now left].
Qed.

Lemma allFit_below selector doc currentDepth limit iframe contentDoc :
  allFit matches argumentLimit selector doc currentDepth limit ->
  In iframe (querySelectorAll_iframe doc) -> accessible iframe = Some contentDoc ->
  allFit matches argumentLimit selector contentDoc (currentDepth + 1) limit.
Proof.
  intros Hfit Hin Hacc n D Hwithin HD. apply (Hfit (S n) D).
  - rewrite <- Hwithin. f_equal. lia.
  - apply documentsAtDepth_below. eauto.
Qed.

Lemma collected_members selector doc :
  forall currentDepth limit,
    allFit matches argumentLimit selector doc currentDepth limit ->
    forall element,
      In element (collected matches argumentLimit selector doc currentDepth limit) <->
      exists n : nat,
        exceeds (currentDepth + Z.of_nat n) limit = false
        /\ In element (elementsAtDepth n doc)
        /\ matches selector element = true.
Proof.
  induction doc as [all IH] using Document_nested_ind.
  intros currentDepth limit Hfit element. rewrite collected_unfold.
  destruct (exceeds currentDepth limit) eqn:Hex.
  - split; [intros []|].
    intros (n & Hwithin & _). apply exceeds_later in Hwithin. congruence.
  - rewrite (allFit_here _ _ _ _ Hfit Hex).
    rewrite in_app_iff, in_flat_map. unfold querySelectorAll. rewrite filter_In.
    split.
    + intros [(Hin & Hm) | (iframe & Hi & Hbelow)].
      * exists 0%nat. rewrite Z.add_0_r, elementsAtDepth_0. auto.
      * unfold collectedBelow in Hbelow.
        destruct (accessible iframe) as [contentDoc|] eqn:Hacc; [|destruct Hbelow].
        apply (IH iframe contentDoc Hi (proj1 (accessible_Loaded _ _) Hacc)) in Hbelow;
          [|exact (allFit_below _ _ _ _ _ _ Hfit Hi Hacc)].
        destruct Hbelow as (n & Hwithin & Hin & Hm).
        exists (S n). repeat split; trivial.
        -- rewrite <- Hwithin. f_equal. lia.
        -- apply elementsAtDepth_below. eauto.
    + intros (n & Hwithin & Hin & Hm). destruct n as [|n].
      * left. rewrite elementsAtDepth_0 in Hin. auto.
      * right. apply elementsAtDepth_below in Hin.
        destruct Hin as (iframe & contentDoc & Hi & Hacc & Hin).
        exists iframe. split; [exact Hi|].
        unfold collectedBelow. rewrite Hacc.
        apply (IH iframe contentDoc Hi (proj1 (accessible_Loaded _ _) Hacc));
          [exact (allFit_below _ _ _ _ _ _ Hfit Hi Hacc)|].
        exists n. repeat split; trivial.
        rewrite <- Hwithin. f_equal. lia.
Qed.

(** X5. When no document reachable within the bound has more matches than
    the engine takes as the arguments of one call, [findAllElements]
    returns exactly the elements that match the selector and lie in the
    root document or in a document reached from it through accessible
    iframes, at a depth the bound allows: none is missed and nothing else
    is returned. *)
Theorem findAllElements_members selector options :
  allFit matches argumentLimit selector
    (default document (rootDocument options)) 0 (default Infinity (maxDepth options)) ->
  exists all,
    findAllElements matches document argumentLimit selector options = Normal all
    /\ forall element,
         In element all <->
         exists n : nat,
           exceeds (Z.of_nat n) (default Infinity (maxDepth options)) = false
           /\ In element (elementsAtDepth n (default document (rootDocument options)))
           /\ matches selector element = true.
Proof.
  intros Hfit. eexists. split.
  - rewrite findAllElements_closed.
    destruct (exceeds 0 (default Infinity (maxDepth options))) eqn:Hex; [reflexivity|].
    now rewrite (allFit_here _ _ _ _ Hfit Hex).
  - intros element. now apply collected_members.
Qed.

(** X6. [findIframeById] returns only an iframe whose id attribute is
    the given string, and answers absent exactly when no iframe reachable
    within the bound has that id. *)
Theorem findIframeById_id id options :
  (forall found,
     findIframeById document id options = Normal (Some found) ->
     iframe_id found = id
     /\ exists m : nat,
          In found (iframesAtDepth m (default document (rootDocument options)))
          /\ exceeds (Z.of_nat m) (default Infinity (maxDepth options)) = false)
  /\ (findIframeById document id options = Normal None <->
      forall (n : nat) iframe,
        exceeds (Z.of_nat n) (default Infinity (maxDepth options)) = false ->
        In iframe (iframesAtDepth n (default document (rootDocument options))) ->
        iframe_id iframe <> id).
Proof.
  unfold findIframeById. split.
  - intros found Hs. apply findIframeRecursive_sound in Hs.
    destruct Hs as (Hp & Hm). split; [now apply String.eqb_eq | exact Hm].
  - rewrite findIframeRecursive_absent_iff. split.
    + intros Hnone n iframe Hwithin Hin. apply String.eqb_neq. eauto.
    + intros Hnone n iframe Hwithin Hin. apply String.eqb_neq. eauto.
Qed.

(** X7. [findIframeByName] returns only an iframe whose name attribute is
    the given string, and answers absent exactly when no iframe reachable
    within the bound has that name. *)
Theorem findIframeByName_name name options :
  (forall found,
     findIframeByName document name options = Normal (Some found) ->
     iframe_name found = name
     /\ exists m : nat,
          In found (iframesAtDepth m (default document (rootDocument options)))
          /\ exceeds (Z.of_nat m) (default Infinity (maxDepth options)) = false)
  /\ (findIframeByName document name options = Normal None <->
      forall (n : nat) iframe,
        exceeds (Z.of_nat n) (default Infinity (maxDepth options)) = false ->
        In iframe (iframesAtDepth n (default document (rootDocument options))) ->
        iframe_name iframe <> name).
Proof.
  unfold findIframeByName. split.
  - intros found Hs. apply findIframeRecursive_sound in Hs.
    destruct Hs as (Hp & Hm). split; [now apply String.eqb_eq | exact Hm].
  - rewrite findIframeRecursive_absent_iff. split.
    + intros Hnone n iframe Hwithin Hin. apply String.eqb_neq. eauto.
    + intros Hnone n iframe Hwithin Hin. apply String.eqb_neq. eauto.
Qed.

(** X8. With [maxDepth = 0], [findIframe] is exactly the head of
    [findAllIframes] on the same root; and under any bound that lets the
    root be searched, when [findAllIframes] is not empty, [findIframe]
    returns its first member. *)
Theorem findIframe_head_of_findAllIframes predicate root :
  findIframe document predicate (mkOptions root (Some (Int 0)))
  = Normal (hd_error (findAllIframes document predicate root))
  /\ (forall limit first,
        exceeds 0 limit = false ->
        hd_error (findAllIframes document predicate root) = Some first ->
        findIframe document predicate (mkOptions root (Some limit)) = Normal (Some first)).
Proof.
  unfold findAllIframes, findIframe. cbn [default rootDocument maxDepth].
  rewrite hd_error_filter. split.
  - rewrite findIframeRecursive_unfold. cbn [exceeds Z.ltb Z.compare].
    destruct (find predicate (querySelectorAll_iframe (default document root)));
      [reflexivity|].
    f_equal. apply firstSome_none. intros iframe _.
    apply (foundBelow_at_bound predicate 0).
  - intros limit first Hex Hfirst.
    now rewrite findIframeRecursive_unfold, Hex, Hfirst.
Qed.

(** *** A bound that reaches the deepest document *)

Lemma flat_map_nil_inv {A B} (f : A -> list B) l :
  flat_map f l = [] -> forall a, In a l -> f a = [].
Proof.
  induction l as [|a0 rest IH]; intros Hnil a Hin; [destruct Hin|].
  cbn in Hnil. apply app_eq_nil in Hnil. destruct Hnil as (Ha0 & Hrest).
  destruct Hin as [<- | Hin]; [exact Ha0 | now apply IH].
Qed.

Lemma nothing_below (k : nat) doc iframe contentDoc :
  documentsAtDepth (S k) doc = [] ->
  In iframe (querySelectorAll_iframe doc) -> accessible iframe = Some contentDoc ->
  exists k' : nat, k = S k' /\ documentsAtDepth (S k') contentDoc = [].
Proof.
  intros Hnil Hin Hacc. cbn [documentsAtDepth] in Hnil.
  pose proof (flat_map_nil_inv _ _ Hnil iframe Hin) as Hone.
  cbn beta in Hone. rewrite Hacc in Hone.
  destruct k as [|k']; [discriminate|]. eauto.
Qed.

Lemma findIframeRecursive_deep_bound predicate (k : nat) :
  forall doc currentDepth m,
    documentsAtDepth (S k) doc = [] -> currentDepth + Z.of_nat k <= m ->
    findIframeRecursive predicate doc currentDepth (Int m)
    = findIframeRecursive predicate doc currentDepth Infinity.
Proof.
  induction k as [|k IH]; intros doc currentDepth m Hnil Hm;
    rewrite !findIframeRecursive_unfold; cbn [exceeds];
    replace (m <? currentDepth) with false by (symmetry; apply Z.ltb_ge; lia);
    (destruct (find predicate (querySelectorAll_iframe doc)); [reflexivity|]);
    f_equal; apply firstSome_ext; intros iframe Hin; unfold foundBelow;
    (destruct (accessible iframe) as [contentDoc|] eqn:Hacc; [|reflexivity]);
    destruct (nothing_below _ _ _ _ Hnil Hin Hacc) as (k' & Hk & Hnil');
    [discriminate|].
  injection Hk as <-. rewrite (IH contentDoc (currentDepth + 1) m Hnil'); [reflexivity|lia].
Qed.

Lemma findElementRecursive_deep_bound selector (k : nat) :
  forall doc currentDepth m,
    documentsAtDepth (S k) doc = [] -> currentDepth + Z.of_nat k <= m ->
    findElementRecursive matches selector doc currentDepth (Int m)
    = findElementRecursive matches selector doc currentDepth Infinity.
Proof.
  induction k as [|k IH]; intros doc currentDepth m Hnil Hm;
    rewrite !findElementRecursive_unfold; cbn [exceeds];
    replace (m <? currentDepth) with false by (symmetry; apply Z.ltb_ge; lia);
    (destruct (querySelector matches selector doc); [reflexivity|]);
    f_equal; apply firstSome_ext; intros iframe Hin; unfold elementBelow;
    (destruct (accessible iframe) as [contentDoc|] eqn:Hacc; [|reflexivity]);
    destruct (nothing_below _ _ _ _ Hnil Hin Hacc) as (k' & Hk & Hnil');
    [discriminate|].
  injection Hk as <-. rewrite (IH contentDoc (currentDepth + 1) m Hnil'); [reflexivity|lia].
Qed.

Lemma flat_map_ext_in {A B} (f g : A -> list B) l :
  (forall a, In a l -> f a = g a) -> flat_map f l = flat_map g l.
Proof.
  induction l as [|a rest IH]; intros Hfg; [reflexivity|].
  cbn. rewrite (Hfg a (or_introl eq_refl)). f_equal.
  apply IH. intros a' Hin. apply Hfg. now right.
Qed.

Lemma collected_deep_bound selector (k : nat) :
  forall doc currentDepth m,
    documentsAtDepth (S k) doc = [] -> currentDepth + Z.of_nat k <= m ->
    collected matches argumentLimit selector doc currentDepth (Int m)
    = collected matches argumentLimit selector doc currentDepth Infinity.
Proof.
  induction k as [|k IH]; intros doc currentDepth m Hnil Hm;
    rewrite !collected_unfold; cbn [exceeds];
    replace (m <? currentDepth) with false by (symmetry; apply Z.ltb_ge; lia);
    (destruct (fits argumentLimit (querySelectorAll matches selector doc));
     [|reflexivity]);
    f_equal; apply flat_map_ext_in; intros iframe Hin; unfold collectedBelow;
    (destruct (accessible iframe) as [contentDoc|] eqn:Hacc; [|reflexivity]);
    destruct (nothing_below _ _ _ _ Hnil Hin Hacc) as (k' & Hk & Hnil');
    [discriminate|].
  injection Hk as <-. apply IH; [exact Hnil' | lia].
Qed.

(** X9. When no document lies more than [k] iframe boundaries below the
    root, every integer [maxDepth] of at least [k] gives the same results
    as no bound at all, for [findIframe], [findElement] and
    [findAllElements]. *)
Theorem bound_beyond_nesting (k : nat) (m : Z) predicate selector root :
  documentsAtDepth (S k) (default document root) = [] ->
  Z.of_nat k <= m ->
  findIframe document predicate (mkOptions root (Some (Int m)))
  = findIframe document predicate (mkOptions root None)
  /\ findElement matches document selector (mkOptions root (Some (Int m)))
     = findElement matches document selector (mkOptions root None)
  /\ findAllElements matches document argumentLimit selector (mkOptions root (Some (Int m)))
     = findAllElements matches document argumentLimit selector (mkOptions root None).
Proof.
  intros Hnil Hm. unfold findIframe, findElement.
  rewrite !findAllElements_closed. cbn [default rootDocument maxDepth].
  rewrite (findIframeRecursive_deep_bound predicate k), (findElementRecursive_deep_bound selector k),
    (collected_deep_bound selector k) by (trivial; lia).
  cbn [exceeds].
  replace (m <? 0) with false by (symmetry; apply Z.ltb_ge; lia).
  repeat split.
Qed.

(** *** One level at a time *)

Lemma exceeds_minusOne currentDepth limit :
  exceeds (currentDepth + 1) limit = exceeds currentDepth (minusOne limit).
Proof.
  destruct limit as [m|]; cbn; [|reflexivity].
  destruct (Z.ltb_spec m (currentDepth + 1)), (Z.ltb_spec (m - 1) currentDepth);
    reflexivity || lia.
Qed.

Lemma findIframeRecursive_minusOne predicate doc :
  forall currentDepth limit,
    findIframeRecursive predicate doc (currentDepth + 1) limit
    = findIframeRecursive predicate doc currentDepth (minusOne limit).
Proof.
  induction doc as [all IH] using Document_nested_ind.
  intros currentDepth limit.
  rewrite !findIframeRecursive_unfold, exceeds_minusOne.
  destruct (exceeds currentDepth (minusOne limit)); [reflexivity|].
  destruct (find predicate (querySelectorAll_iframe (Doc all))); [reflexivity|].
  f_equal. apply firstSome_ext. intros iframe Hin. unfold foundBelow.
  destruct (accessible iframe) as [contentDoc|] eqn:Hacc; [|reflexivity].
  now rewrite (IH iframe contentDoc Hin (proj1 (accessible_Loaded _ _) Hacc)).
Qed.

Lemma findElementRecursive_minusOne selector doc :
  forall currentDepth limit,
    findElementRecursive matches selector doc (currentDepth + 1) limit
    = findElementRecursive matches selector doc currentDepth (minusOne limit).
Proof.
  induction doc as [all IH] using Document_nested_ind.
  intros currentDepth limit.
  rewrite !findElementRecursive_unfold, exceeds_minusOne.
  destruct (exceeds currentDepth (minusOne limit)); [reflexivity|].
  destruct (querySelector matches selector (Doc all)); [reflexivity|].
  f_equal. apply firstSome_ext. intros iframe Hin. unfold elementBelow.
  destruct (accessible iframe) as [contentDoc|] eqn:Hacc; [|reflexivity].
  now rewrite (IH iframe contentDoc Hin (proj1 (accessible_Loaded _ _) Hacc)).
Qed.

Lemma collected_minusOne selector doc :
  forall currentDepth limit,
    collected matches argumentLimit selector doc (currentDepth + 1) limit
    = collected matches argumentLimit selector doc currentDepth (minusOne limit).
Proof.
  induction doc as [all IH] using Document_nested_ind.
  intros currentDepth limit.
  rewrite !collected_unfold, exceeds_minusOne.
  destruct (exceeds currentDepth (minusOne limit)); [reflexivity|].
  destruct (fits argumentLimit (querySelectorAll matches selector (Doc all)));
    [|reflexivity].
  f_equal. apply flat_map_ext_in. intros iframe Hin. unfold collectedBelow.
  destruct (accessible iframe) as [contentDoc|] eqn:Hacc; [|reflexivity].
  apply (IH iframe contentDoc Hin (proj1 (accessible_Loaded _ _) Hacc)).
Qed.

(** X10. Under a bound that lets the root be searched, [findIframe] on a
    root answers the first matching iframe of the root, or else the first
    answer that [findIframe] itself gives when started on the accessible
    nested documents of the root's iframes, in order, with the bound
    lowered by one. *)
Theorem findIframe_one_level predicate root limit :
  exceeds 0 limit = false ->
  findIframe document predicate (mkOptions (Some root) (Some limit))
  = Normal
      match find predicate (querySelectorAll_iframe root) with
      | Some iframe => Some iframe
      | None =>
        firstSome
          (fun iframe =>
             match accessible iframe with
             | Some contentDoc =>
               returned (findIframe document predicate
                           (mkOptions (Some contentDoc) (Some (minusOne limit))))
             | None => None
             end)
          (querySelectorAll_iframe root)
      end.
Proof.
  intros Hex. unfold findIframe. cbn [default rootDocument maxDepth].
  rewrite findIframeRecursive_unfold, Hex.
  destruct (find predicate (querySelectorAll_iframe root)); [reflexivity|].
  f_equal. apply firstSome_ext. intros iframe _. unfold foundBelow.
  destruct (accessible iframe) as [contentDoc|]; [|reflexivity].
  now rewrite findIframeRecursive_minusOne.
Qed.

(** X11. Under a bound that lets the root be searched, [findElement] on
    a root answers the first match of the root, or else the first answer
    that [findElement] itself gives when started on the accessible nested
    documents of the root's iframes, in order, with the bound lowered by
    one. *)
Theorem findElement_one_level selector root limit :
  exceeds 0 limit = false ->
  findElement matches document selector (mkOptions (Some root) (Some limit))
  = Normal
      match querySelector matches selector root with
      | Some element => Some element
      | None =>
        firstSome
          (fun iframe =>
             match accessible iframe with
             | Some contentDoc =>
               returned (findElement matches document selector
                           (mkOptions (Some contentDoc) (Some (minusOne limit))))
             | None => None
             end)
          (querySelectorAll_iframe root)
      end.
Proof.
  intros Hex. unfold findElement. cbn [default rootDocument maxDepth].
  rewrite findElementRecursive_unfold, Hex.
  destruct (querySelector matches selector root); [reflexivity|].
  f_equal. apply firstSome_ext. intros iframe _. unfold elementBelow.
  destruct (accessible iframe) as [contentDoc|]; [|reflexivity].
  now rewrite findElementRecursive_minusOne.
Qed.

(** X12. Under a bound that lets the root be searched, and when the
    root has no more matches than the engine takes as the arguments of one
    call, [findAllElements] on a root is the matches of the root followed,
    for each iframe of the root in order, by what [findAllElements] itself
    returns when started on its accessible nested document with the bound
    lowered by one, and by nothing when that call throws. *)
Theorem findAllElements_one_level selector root limit :
  exceeds 0 limit = false ->
  fits argumentLimit (querySelectorAll matches selector root) = true ->
  findAllElements matches document argumentLimit selector (mkOptions (Some root) (Some limit))
  = Normal
      (querySelectorAll matches selector root
       ++ flat_map
            (fun iframe =>
               match accessible iframe with
               | Some contentDoc =>
                 completed (findAllElements matches document argumentLimit selector
                              (mkOptions (Some contentDoc) (Some (minusOne limit))))
               | None => []
               end)
            (querySelectorAll_iframe root)).
Proof.
  intros Hex Hfit. rewrite findAllElements_closed. cbn [default rootDocument maxDepth].
  rewrite collected_unfold, Hex, Hfit. cbn [orb]. do 2 f_equal.
  apply flat_map_ext_in. intros iframe _. unfold collectedBelow.
  destruct (accessible iframe) as [contentDoc|]; [|reflexivity].
  rewrite findAllElements_closed. cbn [default rootDocument maxDepth].
  rewrite collected_minusOne, (collected_unfold matches argumentLimit selector contentDoc 0).
  destruct (exceeds 0 (minusOne limit)); [reflexivity|].
  destruct (fits argumentLimit (querySelectorAll matches selector contentDoc));
    reflexivity.
Qed.

(** X13. When none of the root's iframes gives access to a nested
    document, under any bound that lets the root be searched the searches
    are the plain queries on the root: [findIframe] is the first matching
    iframe of the root, [findElement] is [querySelector], and
    [findAllElements] is [querySelectorAll] when the root has no more
    matches than the engine takes as the arguments of one call, and
    throws a [RangeError] otherwise. *)
Theorem closed_iframes_plain_queries predicate selector root limit :
  (forall iframe, In iframe (querySelectorAll_iframe root) -> accessible iframe = None) ->
  exceeds 0 limit = false ->
  findIframe document predicate (mkOptions (Some root) (Some limit))
  = Normal (find predicate (querySelectorAll_iframe root))
  /\ findElement matches document selector (mkOptions (Some root) (Some limit))
     = Normal (querySelector matches selector root)
  /\ findAllElements matches document argumentLimit selector
       (mkOptions (Some root) (Some limit))
     = if fits argumentLimit (querySelectorAll matches selector root)
       then Normal (querySelectorAll matches selector root)
       else Throw RangeError.
Proof.
  intros Hclosed Hex. unfold findIframe, findElement.
  rewrite findAllElements_closed. cbn [default rootDocument maxDepth].
  rewrite findIframeRecursive_unfold, findElementRecursive_unfold, collected_unfold, Hex.
  split; [|split].
  - destruct (find predicate (querySelectorAll_iframe root)); [reflexivity|].
    f_equal. apply firstSome_none. intros iframe Hin.
    unfold foundBelow. now rewrite (Hclosed iframe Hin).
  - destruct (querySelector matches selector root); [reflexivity|].
    f_equal. apply firstSome_none. intros iframe Hin.
    unfold elementBelow. now rewrite (Hclosed iframe Hin).
  - cbn [orb].
    destruct (fits argumentLimit (querySelectorAll matches selector root));
      [|reflexivity].
    rewrite flat_map_nil; [now rewrite app_nil_r|].
    intros iframe Hin. unfold collectedBelow. now rewrite (Hclosed iframe Hin).
Qed.

(** *** Raising the bound *)

Lemma Subseq_refl {A} (l : list A) : Subseq l l.
Proof. induction l; constructor; assumption. Qed.

Lemma Subseq_app_l {A} (l l1 l2 : list A) : Subseq l1 l2 -> Subseq l1 (l ++ l2).
Proof. intros H. induction l; [exact H | now apply Subseq_drop]. Qed.

Lemma Subseq_app {A} (l1 l1' l2 l2' : list A) :
  Subseq l1 l1' -> Subseq l2 l2' -> Subseq (l1 ++ l2) (l1' ++ l2').
Proof.
  intros H1 H2. induction H1 as [l | a l1 l1' H1 IH | a l1 l1' H1 IH]; cbn.
  - now apply Subseq_app_l.
  - now apply Subseq_keep.
  - now apply Subseq_drop.
Qed.

Lemma Subseq_flat_map {A B} (f g : A -> list B) l :
  (forall a, In a l -> Subseq (f a) (g a)) -> Subseq (flat_map f l) (flat_map g l).
Proof.
  induction l as [|a rest IH]; intros Hfg; cbn; [constructor|].
  apply Subseq_app; [apply Hfg; now left|].
  apply IH. intros a' Hin. apply Hfg. now right.
Qed.

Lemma exceeds_leNumber currentDepth limit limit' :
  leNumber limit limit' -> exceeds currentDepth limit = false ->
  exceeds currentDepth limit' = false.
Proof.
  destruct limit as [m|], limit' as [m'|]; cbn; trivial; [|intros []].
  rewrite !Z.ltb_ge. lia.
Qed.

Lemma collected_leNumber selector limit limit' doc :
  leNumber limit limit' ->
  forall currentDepth,
    Subseq (collected matches argumentLimit selector doc currentDepth limit)
           (collected matches argumentLimit selector doc currentDepth limit').
Proof.
  intros Hle. induction doc as [all IH] using Document_nested_ind.
  intros currentDepth. rewrite !collected_unfold.
  destruct (exceeds currentDepth limit) eqn:Hex; [constructor|].
  rewrite (exceeds_leNumber _ _ _ Hle Hex).
  destruct (fits argumentLimit (querySelectorAll matches selector (Doc all)));
    [|constructor].
  apply Subseq_app; [apply Subseq_refl|].
  apply Subseq_flat_map. intros iframe Hin. unfold collectedBelow.
  destruct (accessible iframe) as [contentDoc|] eqn:Hacc; [|constructor].
  apply (IH iframe contentDoc Hin (proj1 (accessible_Loaded _ _) Hacc)).
Qed.

(** X14. Raising [maxDepth] only adds results to [findAllElements]: when
    it returns under a bound, it returns under every smaller bound, and
    what it returns under the smaller bound is what it returns under the
    larger one with some members left out, in the same order. *)
Theorem findAllElements_raise_bound selector root limit limit' all' :
  leNumber limit limit' ->
  findAllElements matches document argumentLimit selector (mkOptions root (Some limit'))
  = Normal all' ->
  exists all,
    findAllElements matches document argumentLimit selector (mkOptions root (Some limit))
    = Normal all
    /\ Subseq all all'.
Proof.
  intros Hle. rewrite !findAllElements_closed. cbn [default rootDocument maxDepth].
  intros Hlarge.
  exists (collected matches argumentLimit selector (default document root) 0 limit).
  split.
  - destruct (exceeds 0 limit) eqn:Hex; [reflexivity|].
    rewrite (exceeds_leNumber _ _ _ Hle Hex) in Hlarge. cbn [orb] in Hlarge |- *.
    destruct (fits argumentLimit (querySelectorAll matches selector (default document root)));
      [reflexivity | discriminate].
  - destruct (exceeds 0 limit' || _); [|discriminate].
    injection Hlarge as <-. now apply collected_leNumber.
Qed.

(** X15. Raising [maxDepth] never loses a hit: when [findIframe], or
    [findElement], finds something under a bound, it finds something
    under any larger bound. *)
Theorem first_match_raise_bound predicate selector root limit limit' :
  leNumber limit limit' ->
  (forall found,
     findIframe document predicate (mkOptions root (Some limit)) = Normal (Some found) ->
     exists found',
       findIframe document predicate (mkOptions root (Some limit')) = Normal (Some found'))
  /\ (forall found,
        findElement matches document selector (mkOptions root (Some limit))
        = Normal (Some found) ->
        exists found',
          findElement matches document selector (mkOptions root (Some limit'))
          = Normal (Some found')).
Proof.
  intros Hle. unfold findIframe, findElement. cbn [default rootDocument maxDepth].
  split; intros found Hs.
  - apply findIframeRecursive_sound in Hs. destruct Hs as (Hp & m & Hin & Hwithin).
    destruct (findIframeRecursive predicate (default document root) 0 limit')
      as [[found'|]|err] eqn:Hs'; [eauto| |].
    + rewrite (proj1 (findIframeRecursive_absent_iff _ _ _ _) Hs' m found
                 (exceeds_leNumber _ _ _ Hle Hwithin) Hin) in Hp.
      discriminate.
    + rewrite findIframeRecursive_unfold in Hs'. discriminate.
  - apply findElementRecursive_sound in Hs. destruct Hs as (Hp & m & Hin & Hwithin).
    destruct (findElementRecursive matches selector (default document root) 0 limit')
      as [[found'|]|err] eqn:Hs'; [eauto| |].
    + rewrite (proj1 (findElementRecursive_absent_iff _ _ _ _) Hs' m found
                 (exceeds_leNumber _ _ _ Hle Hwithin) Hin) in Hp.
      discriminate.
    + rewrite findElementRecursive_unfold in Hs'. discriminate.
Qed.

(** *** The two first-match searches agree *)

Lemma firstSome_map {A B C} (f : A -> option B) (g : B -> C) l :
  firstSome (fun a => option_map g (f a)) l = option_map g (firstSome f l).
Proof.
  induction l as [|a rest IH]; [reflexivity|].
  cbn. destruct (f a); [reflexivity | exact IH].
Qed.

Lemma find_among_iframes (predicate : IframePredicate) (test : Element -> bool) all :
  (forall element,
     test element = match element with
                    | IFrameOf iframe => predicate iframe
                    | Other _ _ _ => false
                    end) ->
  find test all = option_map IFrameOf (find predicate (iframesOf all)).
Proof.
  intros Htest. induction all as [|e rest IH]; [reflexivity|].
  cbn [find]. rewrite (Htest e).
  destruct e as [tag i c | iframe]; cbn [iframesOf find]; [exact IH|].
  destruct (predicate iframe); [reflexivity | exact IH].
Qed.

Lemma findElementRecursive_as_findIframeRecursive predicate selector doc :
  (forall element,
     matches selector element = match element with
                                | IFrameOf iframe => predicate iframe
                                | Other _ _ _ => false
                                end) ->
  forall currentDepth limit,
    findElementRecursive matches selector doc currentDepth limit
    = Normal (option_map IFrameOf
                (returned (findIframeRecursive predicate doc currentDepth limit))).
Proof.
  intros Hsel. induction doc as [all IH] using Document_nested_ind.
  intros currentDepth limit.
  rewrite findElementRecursive_unfold, findIframeRecursive_unfold. cbn [returned].
  f_equal. destruct (exceeds currentDepth limit); [reflexivity|].
  unfold querySelector, querySelectorAll_iframe.
  rewrite (find_among_iframes predicate _ _ Hsel).
  destruct (find predicate (iframesOf (elements (Doc all)))); [reflexivity|].
  cbn [option_map]. rewrite <- firstSome_map. apply firstSome_ext.
  intros iframe Hin. unfold elementBelow, foundBelow.
  destruct (accessible iframe) as [contentDoc|] eqn:Hacc; [|reflexivity].
  now rewrite (IH iframe contentDoc Hin (proj1 (accessible_Loaded _ _) Hacc)).
Qed.

(** X16. When the selector selects exactly the iframes that satisfy the
    predicate, [findElement] with that selector returns the very iframe
    that [findIframe] returns with that predicate, and is absent when
    [findIframe] is. *)
Theorem findElement_agrees_with_findIframe predicate selector options :
  (forall element,
     matches selector element = match element with
                                | IFrameOf iframe => predicate iframe
                                | Other _ _ _ => false
                                end) ->
  findElement matches document selector options
  = (found <- findIframe document predicate options ;;
     Normal (option_map IFrameOf found)).
Proof.
  intros Hsel. unfold findElement, findIframe.
  rewrite (findElementRecursive_as_findIframeRecursive predicate selector _ Hsel).
  rewrite findIframeRecursive_unfold. reflexivity.
Qed.

Lemma filter_among_iframes (predicate : IframePredicate) (test : Element -> bool) all :
  (forall element,
     test element = match element with
                    | IFrameOf iframe => predicate iframe
                    | Other _ _ _ => false
                    end) ->
  filter test all = map IFrameOf (filter predicate (iframesOf all)).
Proof.
  intros Htest. induction all as [|e rest IH]; [reflexivity|].
  cbn [filter]. rewrite (Htest e).
  destruct e as [tag i c | iframe]; cbn [iframesOf filter]; [exact IH|].
  destruct (predicate iframe); cbn [map]; [now rewrite IH | exact IH].
Qed.

(** X17. When the selector selects exactly the iframes that satisfy the
    predicate, [findAllElements] with that selector and [maxDepth = 0]
    returns the iframes that [findAllIframes] returns with that
    predicate, in the same order, as long as they are no more than the
    engine takes as the arguments of one call; past that it throws a
    [RangeError], where [findAllIframes] still returns. *)
Theorem findAllIframes_as_findAllElements predicate selector root :
  (forall element,
     matches selector element = match element with
                                | IFrameOf iframe => predicate iframe
                                | Other _ _ _ => false
                                end) ->
  findAllElements matches document argumentLimit selector (mkOptions root (Some (Int 0)))
  = if fits argumentLimit (findAllIframes document predicate root)
    then Normal (map IFrameOf (findAllIframes document predicate root))
    else Throw RangeError.
Proof.
  intros Hsel. rewrite findAllElements_closed. cbn [default rootDocument maxDepth].
  rewrite collected_unfold. cbn [exceeds Z.ltb Z.compare orb].
  assert (Hsame : querySelectorAll matches selector (default document root)
                  = map IFrameOf (findAllIframes document predicate root)).
  { unfold querySelectorAll, findAllIframes, querySelectorAll_iframe.
    apply (filter_among_iframes predicate _ _ Hsel). }
  rewrite Hsame. unfold fits. rewrite length_map.
  destruct (List.length (findAllIframes document predicate root) <=? argumentLimit)%nat;
    [|reflexivity].
  rewrite flat_map_nil
    by (intros iframe _; apply (collectedBelow_at_bound matches argumentLimit selector 0)).
  now rewrite app_nil_r.
Qed.

(** *** An iframe without access *)



(** *** More matches than one call takes *)

Lemma fits_false_some {A} (items : list A) :
  fits argumentLimit items = false -> items <> [].
Proof. intros Hfit ->. discriminate. Qed.

Lemma find_none_filter {A} (f : A -> bool) l : find f l = None -> filter f l = [].
Proof.
  induction l as [|a rest IH]; [reflexivity|].
  cbn. destruct (f a); [discriminate | exact IH].
Qed.

(** C6, at the input where the code departs from it.  When the document
    of an iframe of the root has more matches than the engine takes as the
    arguments of one call, the push of that document throws, the loop of
    the root catches the throw, and neither the matches of that document
    nor anything below it reach the result: [findAllElements] returns the
    root's matches and what the other iframes give. *)
Theorem findAllElements_drops_crowded_document selector pre iframe post contentDoc limit :
  accessible iframe = Some contentDoc ->
  exceeds 1 limit = false ->
  fits argumentLimit
    (querySelectorAll matches selector (Doc (pre ++ IFrameOf iframe :: post))) = true ->
  fits argumentLimit (querySelectorAll matches selector contentDoc) = false ->
  findAllElements matches document argumentLimit selector
    (mkOptions (Some (Doc (pre ++ IFrameOf iframe :: post))) (Some limit))
  = Normal
      (querySelectorAll matches selector (Doc (pre ++ IFrameOf iframe :: post))
       ++ flat_map (collectedBelow matches argumentLimit selector 0 limit) (iframesOf pre)
       ++ flat_map (collectedBelow matches argumentLimit selector 0 limit) (iframesOf post))
  /\ querySelectorAll matches selector contentDoc <> [].
Proof.
  intros Hacc Hex Hroot Hcrowded. split; [|exact (fits_false_some _ Hcrowded)].
  rewrite findAllElements_closed. cbn [default rootDocument maxDepth].
  rewrite collected_unfold, (exceeds_later 0 limit 1 Hex), Hroot. cbn [orb].
  unfold querySelectorAll_iframe. cbn [elements].
  rewrite iframesOf_app. cbn [iframesOf]. rewrite flat_map_app. cbn [flat_map].
  replace (collectedBelow matches argumentLimit selector 0 limit iframe) with (@nil Element);
    [reflexivity|].
  unfold collectedBelow. rewrite Hacc, collected_unfold. cbn [Z.add].
  now rewrite Hex, Hcrowded.
Qed.

(** C7, at the input where the code departs from it.  When the root has
    more matches than the engine takes as the arguments of one call,
    [findAllElements] with [maxDepth = 0] throws a [RangeError], where the
    plain query returns the matches. *)
Theorem findAllElements_maxDepth_0_throws selector root :
  fits argumentLimit (querySelectorAll matches selector (default document root)) = false ->
  findAllElements matches document argumentLimit selector (mkOptions root (Some (Int 0)))
  = Throw RangeError
  /\ querySelectorAll matches selector (default document root) <> [].
Proof.
  intros Hfit. split; [|exact (fits_false_some _ Hfit)].
  rewrite findAllElements_closed. cbn [default rootDocument maxDepth].
  now rewrite Hfit.
Qed.

(** C9, at the input where the code departs from it.  When the root has
    no match of its own and the document of its first iframe has more
    matches than the engine takes as the arguments of one call,
    [findElement] returns the first match of that document, while
    [findAllElements] leaves that document out and returns what the
    later iframes give. *)
Theorem findElement_found_where_findAllElements_drops selector iframe post contentDoc
    first limit :
  accessible iframe = Some contentDoc ->
  exceeds 1 limit = false ->
  querySelector matches selector (Doc (IFrameOf iframe :: post)) = None ->
  querySelector matches selector contentDoc = Some first ->
  fits argumentLimit (querySelectorAll matches selector contentDoc) = false ->
  findElement matches document selector
    (mkOptions (Some (Doc (IFrameOf iframe :: post))) (Some limit))
  = Normal (Some first)
  /\ findAllElements matches document argumentLimit selector
       (mkOptions (Some (Doc (IFrameOf iframe :: post))) (Some limit))
     = Normal (flat_map (collectedBelow matches argumentLimit selector 0 limit)
                 (iframesOf post)).
Proof.
  intros Hacc Hex Hroot Hfirst Hcrowded.
  pose proof (exceeds_later 0 limit 1 Hex) as Hex0. split.
  - unfold findElement. cbn [default rootDocument maxDepth].
    rewrite findElementRecursive_unfold, Hex0, Hroot.
    unfold querySelectorAll_iframe. cbn [elements iframesOf firstSome].
    unfold elementBelow at 1. rewrite Hacc, findElementRecursive_unfold. cbn [Z.add].
    now rewrite Hex, Hfirst.
  - rewrite findAllElements_closed. cbn [default rootDocument maxDepth].
    assert (Hnone : querySelectorAll matches selector (Doc (IFrameOf iframe :: post)) = [])
      by exact (find_none_filter _ _ Hroot).
    rewrite collected_unfold, Hex0, !Hnone. cbn [orb fits List.length Nat.leb app].
    unfold querySelectorAll_iframe. cbn [elements iframesOf flat_map].
    replace (collectedBelow matches argumentLimit selector 0 limit iframe) with (@nil Element);
      [reflexivity|].
    unfold collectedBelow. rewrite Hacc, collected_unfold. cbn [Z.add].
    now rewrite Hex, Hcrowded.
Qed.

End FinderProperties.

Lemma matchesIframeClass_hit element :
  matchesIframeClass "iframe.hit" element
  = match element with
    | IFrameOf iframe => hasClass "hit" iframe
    | Other _ _ _ => false
    end.
Proof.
  destruct element as [tag i c | iframe]; [reflexivity|].
  unfold hasClass, matchesIframeClass.
  destruct (String.eqb_spec (iframe_className iframe) "hit") as [-> | Hother];
    [reflexivity|].
  apply String.eqb_neq. intros Hsame. apply Hother.
  cbn [String.append] in Hsame. now injection Hsame.
Qed.

Lemma findIframe_sound_witness :
  findIframe pageLeftRight (hasClass "hit") noOptions = Normal (Some deepHit)
  /\ (hasClass "hit" deepHit = true
      /\ exists m : nat,
           In deepHit (iframesAtDepth m pageLeftRight)
           /\ exceeds (Z.of_nat m) Infinity = false).
Proof.
  split; [reflexivity|].
  apply (findIframe_sound pageLeftRight (hasClass "hit") noOptions deepHit).
  reflexivity.
Defined.

Lemma findElement_sound_witness :
  findElement matchesClass pageLeftRight ".box" noOptions = Normal (Some deepDiv)
  /\ (matchesClass ".box" deepDiv = true
      /\ exists m : nat,
           In deepDiv (elementsAtDepth m pageLeftRight)
           /\ exceeds (Z.of_nat m) Infinity = false).
Proof.
  split; [reflexivity|].
  apply (findElement_sound matchesClass pageLeftRight ".box" noOptions deepDiv).
  reflexivity.
Defined.

Lemma bound_beyond_nesting_witness :
  documentsAtDepth 3 pageLeftRight = []
  /\ Z.of_nat 2 <= 5
  /\ (findIframe pageAB (hasClass "hit") (mkOptions (Some pageLeftRight) (Some (Int 5)))
      = findIframe pageAB (hasClass "hit") (mkOptions (Some pageLeftRight) None)
      /\ findElement matchesClass pageAB ".box"
           (mkOptions (Some pageLeftRight) (Some (Int 5)))
         = findElement matchesClass pageAB ".box" (mkOptions (Some pageLeftRight) None)
      /\ findAllElements matchesClass pageAB 2 ".box"
           (mkOptions (Some pageLeftRight) (Some (Int 5)))
         = findAllElements matchesClass pageAB 2 ".box"
             (mkOptions (Some pageLeftRight) None)).
Proof.
  split; [reflexivity|]. split; [discriminate|].
  apply (bound_beyond_nesting matchesClass pageAB 2 2 5 (hasClass "hit") ".box"
           (Some pageLeftRight)).
  - reflexivity.
  - discriminate.
Defined.

Lemma findIframe_one_level_witness :
  exceeds 0 (Int 2) = false
  /\ findIframe pageAB (hasClass "hit") (mkOptions (Some pageLeftRight) (Some (Int 2)))
     = Normal (Some deepHit).
Proof.
  split; [reflexivity|].
  etransitivity.
  - apply (findIframe_one_level pageAB (hasClass "hit") pageLeftRight (Int 2)).
    reflexivity.
  - reflexivity.
Defined.

Lemma findElement_one_level_witness :
  exceeds 0 (Int 2) = false
  /\ findElement matchesClass pageAB ".box" (mkOptions (Some pageLeftRight) (Some (Int 2)))
     = Normal (Some deepDiv).
Proof.
  split; [reflexivity|].
  etransitivity.
  - apply (findElement_one_level matchesClass pageAB ".box" pageLeftRight (Int 2)).
    reflexivity.
  - reflexivity.
Defined.

Lemma findAllElements_one_level_witness :
  exceeds 0 (Int 1) = false
  /\ fits 2 (querySelectorAll matchesClass ".box" pageCrowded) = true
  /\ findAllElements matchesClass pageAB 2 ".box"
       (mkOptions (Some pageCrowded) (Some (Int 1)))
     = Normal [box "a"; box "f"].
Proof.
  split; [reflexivity|]. split; [reflexivity|].
  etransitivity.
  - apply (findAllElements_one_level matchesClass pageAB 2 ".box" pageCrowded (Int 1));
      reflexivity.
  - reflexivity.
Defined.

Lemma closed_iframes_plain_queries_witness :
  (forall iframe,
     In iframe (querySelectorAll_iframe pageClosed) -> accessible iframe = None)
  /\ exceeds 0 (Int 3) = false
  /\ (findIframe pageAB (hasClass "hit") (mkOptions (Some pageClosed) (Some (Int 3)))
      = Normal (find (hasClass "hit") (querySelectorAll_iframe pageClosed))
      /\ findElement matchesClass pageAB ".foo" (mkOptions (Some pageClosed) (Some (Int 3)))
         = Normal (querySelector matchesClass ".foo" pageClosed)
      /\ findAllElements matchesClass pageAB 5 ".foo"
           (mkOptions (Some pageClosed) (Some (Int 3)))
         = Normal (querySelectorAll matchesClass ".foo" pageClosed)).
Proof.
  assert (Hclosed : forall iframe,
             In iframe (querySelectorAll_iframe pageClosed) -> accessible iframe = None).
  { intros iframe [<- | [<- | []]]; reflexivity. }
  split; [exact Hclosed|]. split; [reflexivity|].
  apply (closed_iframes_plain_queries matchesClass pageAB 5 (hasClass "hit") ".foo"
           pageClosed (Int 3) Hclosed).
  reflexivity.
Defined.

Lemma findAllElements_raise_bound_witness :
  leNumber (Int 1) Infinity
  /\ findAllElements matchesClass pageAB 2 ".box"
       (mkOptions (Some pageLeftRight) (Some Infinity)) = Normal [deepDiv; shallowDiv]
  /\ exists all,
       findAllElements matchesClass pageAB 2 ".box"
         (mkOptions (Some pageLeftRight) (Some (Int 1))) = Normal all
       /\ Subseq all [deepDiv; shallowDiv].
Proof.
  split; [exact I|]. split; [reflexivity|].
  apply (findAllElements_raise_bound matchesClass pageAB 2 ".box"
           (Some pageLeftRight) (Int 1) Infinity [deepDiv; shallowDiv]).
  - exact I.
  - reflexivity.
Defined.

Lemma first_match_raise_bound_witness :
  leNumber (Int 2) (Int 7)
  /\ findIframe pageAB (hasClass "hit") (mkOptions (Some pageLeftRight) (Some (Int 2)))
     = Normal (Some deepHit)
  /\ exists found',
       findIframe pageAB (hasClass "hit") (mkOptions (Some pageLeftRight) (Some (Int 7)))
       = Normal (Some found').
Proof.
  assert (Hle : leNumber (Int 2) (Int 7)) by (cbn; discriminate).
  split; [exact Hle|]. split; [reflexivity|].
  apply (proj1 (first_match_raise_bound matchesClass pageAB (hasClass "hit") ".box"
                  (Some pageLeftRight) (Int 2) (Int 7) Hle) deepHit).
  reflexivity.
Defined.

Lemma findElement_agrees_with_findIframe_witness :
  (forall element,
     matchesIframeClass "iframe.hit" element
     = match element with
       | IFrameOf iframe => hasClass "hit" iframe
       | Other _ _ _ => false
       end)
  /\ findElement matchesIframeClass pageLeftRight "iframe.hit" noOptions
     = Normal (Some (IFrameOf deepHit)).
Proof.
  split; [exact matchesIframeClass_hit|].
  etransitivity.
  - apply (findElement_agrees_with_findIframe matchesIframeClass pageLeftRight
             (hasClass "hit") "iframe.hit" noOptions matchesIframeClass_hit).
  - reflexivity.
Defined.

Lemma findAllIframes_as_findAllElements_witness :
  (forall element,
     matchesIframeClass "iframe.hit" element
     = match element with
       | IFrameOf iframe => hasClass "hit" iframe
       | Other _ _ _ => false
       end)
  /\ findAllElements matchesIframeClass pageAB 1 "iframe.hit"
       (mkOptions (Some (Doc [IFrameOf shallowHit; shallowDiv; IFrameOf frameA]))
          (Some (Int 0)))
     = Normal [IFrameOf shallowHit]
  /\ findAllElements matchesIframeClass pageAB 1 "iframe.hit"
       (mkOptions (Some (Doc [IFrameOf shallowHit; IFrameOf deepHit])) (Some (Int 0)))
     = Throw RangeError.
Proof.
  split; [exact matchesIframeClass_hit|]. split.
  - etransitivity.
    + apply (findAllIframes_as_findAllElements matchesIframeClass pageAB 1
               (hasClass "hit") "iframe.hit"
               (Some (Doc [IFrameOf shallowHit; shallowDiv; IFrameOf frameA]))
               matchesIframeClass_hit).
    + reflexivity.
  - etransitivity.
    + apply (findAllIframes_as_findAllElements matchesIframeClass pageAB 1
               (hasClass "hit") "iframe.hit"
               (Some (Doc [IFrameOf shallowHit; IFrameOf deepHit]))
               matchesIframeClass_hit).
    + reflexivity.
Defined.

Lemma findAllElements_members_witness :
  allFit matchesClass 2 ".box" pageLeftRight 0 Infinity
  /\ exists all,
       findAllElements matchesClass pageAB 2 ".box"
         (mkOptions (Some pageLeftRight) None) = Normal all
       /\ forall element,
            In element all <->
            exists n : nat,
              exceeds (Z.of_nat n) Infinity = false
              /\ In element (elementsAtDepth n pageLeftRight)
              /\ matchesClass ".box" element = true.
Proof.
  assert (Hfit : allFit matchesClass 2 ".box" pageLeftRight 0 Infinity).
  { intros n D _ HD. destruct n as [|[|[|n]]]; cbn in HD;
      repeat (destruct HD as [<- | HD]; [reflexivity|]); destruct HD. }
  split; [exact Hfit|].
  apply (findAllElements_members matchesClass pageAB 2 ".box"
           (mkOptions (Some pageLeftRight) None) Hfit).
Defined.


Lemma findAllElements_drops_crowded_document_witness :
  accessible frameCrowded = Some crowded
  /\ exceeds 1 Infinity = false
  /\ fits 2 (querySelectorAll matchesClass ".box" pageCrowded) = true
  /\ fits 2 (querySelectorAll matchesClass ".box" crowded) = false
  /\ findAllElements matchesClass pageAB 2 ".box" (mkOptions (Some pageCrowded) None)
     = Normal [box "a"; box "f"]
  /\ findAllElements matchesClass pageAB 6 ".box" (mkOptions (Some pageCrowded) None)
     = Normal [box "a"; box "b"; box "c"; box "d"; box "e"; box "f"].
Proof.
  do 4 (split; [reflexivity|]). split; [|reflexivity].
  etransitivity.
  - apply (findAllElements_drops_crowded_document matchesClass pageAB 2 ".box"
             [box "a"] frameCrowded [IFrameOf frameLone] crowded Infinity);
      reflexivity.
  - reflexivity.
Defined.

Lemma findAllElements_maxDepth_0_throws_witness :
  fits 2 (querySelectorAll matchesClass ".box" crowded) = false
  /\ findAllElements matchesClass pageAB 2 ".box" (mkOptions (Some crowded) (Some (Int 0)))
     = Throw RangeError
  /\ querySelectorAll matchesClass ".box" crowded = [box "b"; box "c"; box "d"].
Proof.
  split; [reflexivity|]. split; [|reflexivity].
  apply (findAllElements_maxDepth_0_throws matchesClass pageAB 2 ".box" (Some crowded)).
  reflexivity.
Defined.

Lemma findElement_found_where_findAllElements_drops_witness :
  accessible frameCrowded = Some crowded
  /\ exceeds 1 Infinity = false
  /\ querySelector matchesClass ".box" (Doc [IFrameOf frameCrowded; IFrameOf frameLone])
     = None
  /\ querySelector matchesClass ".box" crowded = Some (box "b")
  /\ fits 2 (querySelectorAll matchesClass ".box" crowded) = false
  /\ findElement matchesClass pageAB ".box"
       (mkOptions (Some (Doc [IFrameOf frameCrowded; IFrameOf frameLone])) (Some Infinity))
     = Normal (Some (box "b"))
  /\ findAllElements matchesClass pageAB 2 ".box"
       (mkOptions (Some (Doc [IFrameOf frameCrowded; IFrameOf frameLone])) (Some Infinity))
     = Normal [box "f"].
Proof.
  do 5 (split; [reflexivity|]). split.
  - apply (proj1 (findElement_found_where_findAllElements_drops matchesClass pageAB 2
                    ".box" frameCrowded [IFrameOf frameLone] crowded (box "b") Infinity
                    eq_refl eq_refl eq_refl eq_refl eq_refl)).
  - etransitivity.
    + apply (proj2 (findElement_found_where_findAllElements_drops matchesClass pageAB 2
                      ".box" frameCrowded [IFrameOf frameLone] crowded (box "b") Infinity
                      eq_refl eq_refl eq_refl eq_refl eq_refl)).
    + reflexivity.
Defined.
